(** * Hound configuration loader ([config/config.go])

    A shallow embedding of the [config] package: the [Repo], [URLPattern],
    [Config] and [SecretMessage] types, the defaulting functions
    [initRepo] and [initConfig], the loader [LoadFromFile] and the
    secret-masking JSON projection [ToJSONString], followed by the
    properties of the package's specification.

    Conventions of the embedding:
    - a Go [string] is a [string] (a sequence of 8-bit characters);
    - a Go [[]byte] is a [ByteSlice]: [None] is the nil slice and
      [Some l] a non-nil slice holding the bytes [l];
    - a Go pointer [*T] that owns its pointee is an [option T], [None]
      being the nil pointer; a function that mutates through a pointer
      takes the pointee and returns its new value;
    - a Go [int] is a [Z] (no arithmetic is done on it here);
    - a call that may panic returns an [outcome]. *)

From Stdlib Require Import ZArith String Ascii Strings.Byte DecimalString.
From stdpp Require Import gmap strings list sorting.

#[local] Open Scope string_scope.
#[local] Open Scope Z_scope.

(** ** Go runtime notions *)

(** [error]: an error value, carried by its message. *)
Inductive error : Type :=
| errors_New (text : string).

(** The result of a call that either returns or panics. *)
Inductive outcome (A : Type) : Type :=
| Return (a : A)
| Panic (msg : string).
Arguments Return {A} a.
Arguments Panic {A} msg.

Definition nilDereference : string :=
  "runtime error: invalid memory address or nil pointer dereference".

(** [[]byte]. *)
Definition ByteSlice : Type := option (list byte).

(** The bytes a slice holds; the nil slice holds none. *)
Definition sliceBytes (s : ByteSlice) : list byte :=
  match s with
  | None => []
  | Some l => l
  end.

(** [s[0:0]]: nil stays nil, any other slice becomes empty. *)
Definition reslice00 (s : ByteSlice) : ByteSlice :=
  match s with
  | None => None
  | Some _ => Some []
  end.

(** [append(s, b...)]: appending nothing returns [s] itself. *)
Definition append (s : ByteSlice) (b : list byte) : ByteSlice :=
  match s, b with
  | None, [] => None
  | None, _ :: _ => Some b
  | Some l, _ => Some (l ++ b)%list
  end.

(** [[]byte(s)] and [string(b)]. *)
Definition bytesOfString (s : string) : ByteSlice :=
  Some (list_byte_of_string s).

Definition stringOfBytes (b : ByteSlice) : string :=
  string_of_list_byte (sliceBytes b).

(** [strings.Contains(s, substr)]. *)
Fixpoint Contains (s substr : string) : bool :=
  String.prefix substr s ||
  match s with
  | EmptyString => false
  | String _ s' => Contains s' substr
  end.

(** ** Constants *)

Definition defaultMsBetweenPoll : Z := 30000.
Definition defaultMaxConcurrentIndexers : Z := 2.
Definition defaultPushEnabled : bool := false.
Definition defaultPollEnabled : bool := true.
Definition defaultTitle : string := "Hound".
Definition defaultVcs : string := "git".
Definition defaultBaseURL : string := "{url}/blob/master/{path}{anchor}".
Definition defaultBaseURLAzureDevops : string :=
  "{url}/?path=%2F{path}&version=GBmaster&line={anchor}".
Definition defaultAnchor : string := "#L{line}".
Definition defaultHealthCheckURI : string := "/healthz".
Definition defaultAnchorAzureDevops : string := "&line={line}".

(** ** Data model *)

Record URLPattern : Type := mkURLPattern {
  BaseURL : string;
  Anchor : string
}.

(** [type SecretMessage []byte]. *)
Definition SecretMessage : Type := ByteSlice.

(** [Repo]. The pointer fields [VcsConfigMessage], [URLPattern] (here
    [URLPatternPtr], the type having taken the name), [EnablePollUpdates]
    and [EnablePushUpdates] are options. *)
Record Repo : Type := mkRepo {
  URL : string;
  MsBetweenPolls : Z;
  Vcs : string;
  VcsConfigMessage : option SecretMessage;
  URLPatternPtr : option URLPattern;
  ExcludeDotFiles : bool;
  EnablePollUpdates : option bool;
  EnablePushUpdates : option bool
}.

(** [Config]. [Repos] is a [map[string]*Repo]: the map may be nil and so
    may each of its values. *)
Record Config : Type := mkConfig {
  DbPath : string;
  Title : string;
  Repos : option (gmap string (option Repo));
  MaxConcurrentIndexers : Z;
  HealthCheckURI : string
}.

(** Field assignments. *)
Definition setBaseURL (v : string) (p : URLPattern) : URLPattern :=
  mkURLPattern v (Anchor p).

Definition setAnchor (v : string) (p : URLPattern) : URLPattern :=
  mkURLPattern (BaseURL p) v.

Definition setMsBetweenPolls (v : Z) (r : Repo) : Repo :=
  mkRepo (URL r) v (Vcs r) (VcsConfigMessage r) (URLPatternPtr r)
    (ExcludeDotFiles r) (EnablePollUpdates r) (EnablePushUpdates r).

Definition setVcs (v : string) (r : Repo) : Repo :=
  mkRepo (URL r) (MsBetweenPolls r) v (VcsConfigMessage r) (URLPatternPtr r)
    (ExcludeDotFiles r) (EnablePollUpdates r) (EnablePushUpdates r).

Definition setVcsConfigMessage (v : option SecretMessage) (r : Repo) : Repo :=
  mkRepo (URL r) (MsBetweenPolls r) (Vcs r) v (URLPatternPtr r)
    (ExcludeDotFiles r) (EnablePollUpdates r) (EnablePushUpdates r).

Definition setURLPattern (v : option URLPattern) (r : Repo) : Repo :=
  mkRepo (URL r) (MsBetweenPolls r) (Vcs r) (VcsConfigMessage r) v
    (ExcludeDotFiles r) (EnablePollUpdates r) (EnablePushUpdates r).

Definition setDbPath (v : string) (c : Config) : Config :=
  mkConfig v (Title c) (Repos c) (MaxConcurrentIndexers c) (HealthCheckURI c).

Definition setTitle (v : string) (c : Config) : Config :=
  mkConfig (DbPath c) v (Repos c) (MaxConcurrentIndexers c) (HealthCheckURI c).

Definition setRepos (v : option (gmap string (option Repo))) (c : Config)
  : Config :=
  mkConfig (DbPath c) (Title c) v (MaxConcurrentIndexers c) (HealthCheckURI c).

Definition setMaxConcurrentIndexers (v : Z) (c : Config) : Config :=
  mkConfig (DbPath c) (Title c) (Repos c) v (HealthCheckURI c).

Definition setHealthCheckURI (v : string) (c : Config) : Config :=
  mkConfig (DbPath c) (Title c) (Repos c) (MaxConcurrentIndexers c) v.

(** ** Tri-state flags *)

(** [optionToBool]: the value when one is present, the default otherwise. *)
Definition optionToBool (val : option bool) (def : bool) : bool :=
  match val with
  | None => def
  | Some v => v
  end.

Definition PollUpdatesEnabled (r : Repo) : bool :=
  optionToBool (EnablePollUpdates r) defaultPollEnabled.

Definition PushUpdatesEnabled (r : Repo) : bool :=
  optionToBool (EnablePushUpdates r) defaultPushEnabled.

(** ** The secret envelope *)

(** [MarshalJSON]: the receiver [s] is never read. *)
Definition MarshalJSON (s : option SecretMessage) : ByteSlice * option error :=
  (bytesOfString "{}", None).

(** [UnmarshalJSON]. The receiver [s] is a [*SecretMessage]; the first
    component of the result is the pointee after the call. The guard tests
    the argument [b], and the assignment dereferences [s]. *)
Definition UnmarshalJSON (s : option SecretMessage) (b : ByteSlice)
  : outcome (option SecretMessage * option error) :=
  match b with
  | None =>
      Return (s, Some (errors_New "SecretMessage: UnmarshalJSON on nil pointer"))
  | Some bs =>
      match s with
      | None => Panic nilDereference
      | Some old => Return (Some (append (reslice00 old) bs), None)
      end
  end.

(** [VcsConfig]: nil when the repo declares no vcs-config. *)
Definition VcsConfig (r : Repo) : ByteSlice :=
  match VcsConfigMessage r with
  | None => None
  | Some m => m
  end.

(** ** Defaults *)

(** [initRepo], on the pointee of a non-nil [*Repo]. *)
Definition initRepo (r : Repo) : Repo :=
  let r := if decide (MsBetweenPolls r = 0)
           then setMsBetweenPolls defaultMsBetweenPoll r else r in
  let r := if decide (Vcs r = "")
           then setVcs defaultVcs r else r in
  match URLPatternPtr r with
  | None =>
      if Contains (URL r) "visualstudio.com"
      then setURLPattern
             (Some (mkURLPattern defaultBaseURLAzureDevops
                      defaultAnchorAzureDevops)) r
      else setURLPattern (Some (mkURLPattern defaultBaseURL defaultAnchor)) r
  | Some p =>
      let p := if decide (BaseURL p = "")
               then setBaseURL defaultBaseURL p else p in
      let p := if decide (Anchor p = "")
               then setAnchor defaultAnchor p else p in
      setURLPattern (Some p) r
  end.

(** [initConfig]. *)
Definition initConfig (c : Config) : Config :=
  let c := if decide (MaxConcurrentIndexers c = 0)
           then setMaxConcurrentIndexers defaultMaxConcurrentIndexers c
           else c in
  if decide (HealthCheckURI c = "")
  then setHealthCheckURI defaultHealthCheckURI c else c.

(** ** The JSON encoder ([encoding/json], as [json.Marshal] uses it on
    a [map[string]*Repo]) *)

(** A value or an error. *)
Inductive result (A : Type) : Type :=
| Ok (a : A)
| Err (e : error).
Arguments Ok {A} a.
Arguments Err {A} e.

#[global] Instance result_bind : MBind result := fun A B f x =>
  match x with
  | Ok a => f a
  | Err e => Err e
  end.

Module json.

Definition byteZ (c : ascii) : Z := Z.of_N (N_of_ascii c).

Definition RuneError : Z := 0xFFFD.

(** The [first] and [acceptRanges] tables of [unicode/utf8], for a
    lead byte that is not ASCII: the length of the sequence and the
    range its second byte must lie in. *)
Definition acceptRange (s0 : Z) : option (nat * Z * Z) :=
  if (0xC2 <=? s0) && (s0 <=? 0xDF) then Some (2%nat, 0x80, 0xBF)
  else if s0 =? 0xE0 then Some (3%nat, 0xA0, 0xBF)
  else if (0xE1 <=? s0) && (s0 <=? 0xEC) then Some (3%nat, 0x80, 0xBF)
  else if s0 =? 0xED then Some (3%nat, 0x80, 0x9F)
  else if (0xEE <=? s0) && (s0 <=? 0xEF) then Some (3%nat, 0x80, 0xBF)
  else if s0 =? 0xF0 then Some (4%nat, 0x90, 0xBF)
  else if (0xF1 <=? s0) && (s0 <=? 0xF3) then Some (4%nat, 0x80, 0xBF)
  else if s0 =? 0xF4 then Some (4%nat, 0x80, 0x8F)
  else None.

Definition continuation (b : Z) : bool := (0x80 <=? b) && (b <=? 0xBF).

(** [utf8.DecodeRuneInString]: the rune at the head of [s] and its
    width in bytes; [(RuneError, 1)] on an invalid encoding. *)
Definition DecodeRuneInString (s : string) : Z * nat :=
  match s with
  | EmptyString => (RuneError, 0%nat)
  | String c0 t0 =>
      let s0 := byteZ c0 in
      if s0 <? 0x80 then (s0, 1%nat) else
      match acceptRange s0 with
      | None => (RuneError, 1%nat)
      | Some (sz, lo, hi) =>
          match t0 with
          | EmptyString => (RuneError, 1%nat)
          | String c1 t1 =>
              let s1 := byteZ c1 in
              if (String.length s <? sz)%nat then (RuneError, 1%nat)
              else if (s1 <? lo) || (hi <? s1) then (RuneError, 1%nat)
              else if (sz <=? 2)%nat
              then (Z.lor (Z.shiftl (Z.land s0 0x1F) 6) (Z.land s1 0x3F),
                    2%nat)
              else
              match t1 with
              | EmptyString => (RuneError, 1%nat)
              | String c2 t2 =>
                  let s2 := byteZ c2 in
                  if negb (continuation s2) then (RuneError, 1%nat)
                  else if (sz <=? 3)%nat
                  then (Z.lor (Z.shiftl (Z.land s0 0x0F) 12)
                          (Z.lor (Z.shiftl (Z.land s1 0x3F) 6)
                             (Z.land s2 0x3F)),
                        3%nat)
                  else
                  match t2 with
                  | EmptyString => (RuneError, 1%nat)
                  | String c3 _ =>
                      let s3 := byteZ c3 in
                      if negb (continuation s3) then (RuneError, 1%nat)
                      else (Z.lor (Z.shiftl (Z.land s0 0x07) 18)
                              (Z.lor (Z.shiftl (Z.land s1 0x3F) 12)
                                 (Z.lor (Z.shiftl (Z.land s2 0x3F) 6)
                                    (Z.land s3 0x3F))),
                            4%nat)
                  end
              end
          end
      end
  end.

Definition hex (n : Z) : string :=
  String.substring (Z.to_nat n) 1 "0123456789abcdef".

(** [htmlSafeSet]: the ASCII bytes written as they are. *)
Definition htmlSafeSet (b : Z) : bool :=
  (0x20 <=? b) && (b <? 0x80) &&
  negb ((b =? 34) || (b =? 38) || (b =? 60) || (b =? 62) || (b =? 92)).

(** The escape of an ASCII byte outside [htmlSafeSet]. *)
Definition escapeByte (c : ascii) : string :=
  let b := byteZ c in
  if (b =? 92) || (b =? 34) then String "\" (String c "")
  else if b =? 8 then "\b"
  else if b =? 12 then "\f"
  else if b =? 10 then "\n"
  else if b =? 13 then "\r"
  else if b =? 9 then "\t"
  else "\u00" +:+ hex (Z.shiftr b 4) +:+ hex (Z.land b 0xF).

Definition dropString (n : nat) (s : string) : string :=
  String.substring n (String.length s - n) s.

(** The loop of [appendString] with [escapeHTML] set; every turn
    consumes at least one byte of [src], so [String.length src] turns
    are enough. *)
Fixpoint appendString_loop (fuel : nat) (src : string) : string :=
  match fuel, src with
  | O, _ => ""
  | _, EmptyString => ""
  | S fuel', String c rest =>
      let b := byteZ c in
      if b <? 0x80 then
        (if htmlSafeSet b then String c "" else escapeByte c)
          +:+ appendString_loop fuel' rest
      else
        let '(r, size) := DecodeRuneInString src in
        if (r =? RuneError) && (size =? 1)%nat
        then "\ufffd" +:+ appendString_loop fuel' rest
        else if (r =? 0x2028) || (r =? 0x2029)
        then "\u202" +:+ hex (Z.land r 0xF)
               +:+ appendString_loop fuel' (dropString size src)
        else String.substring 0 size src
               +:+ appendString_loop fuel' (dropString size src)
  end.

Definition dquote : string := String "034"%char "".

(** [appendString]: a string as a quoted JSON string. *)
Definition appendString (src : string) : string :=
  dquote +:+ appendString_loop (String.length src) src +:+ dquote.

(** An [int] in base 10. *)
Definition intEncoder (n : Z) : string := NilZero.string_of_int (Z.to_int n).

Definition boolEncoder (b : bool) : string :=
  if b then "true" else "false".

(** A [*bool]. *)
Definition boolPtrEncoder (p : option bool) : string :=
  match p with
  | None => "null"
  | Some b => boolEncoder b
  end.

(** A [*SecretMessage], which implements [Marshaler]: null for the nil
    pointer, else the bytes [MarshalJSON] returns, compacted (the
    literal they always are is compact already). *)
Definition marshalerEncoder (p : option SecretMessage) : result string :=
  match p with
  | None => Ok "null"
  | Some _ =>
      match MarshalJSON p with
      | (b, None) => Ok (stringOfBytes b)
      | (_, Some e) => Err e
      end
  end.

Definition field (name : string) (value : string) : string :=
  appendString name +:+ ":" +:+ value.

(** A [*URLPattern]. *)
Definition urlPatternEncoder (p : option URLPattern) : string :=
  match p with
  | None => "null"
  | Some u =>
      "{" +:+ field "base-url" (appendString (BaseURL u))
      +:+ "," +:+ field "anchor" (appendString (Anchor u)) +:+ "}"
  end.

(** A [Repo], its fields in the order of the declaration. *)
Definition repoEncoder (r : Repo) : result string :=
  secret ← marshalerEncoder (VcsConfigMessage r);
  Ok ("{" +:+ field "url" (appendString (URL r))
      +:+ "," +:+ field "ms-between-poll" (intEncoder (MsBetweenPolls r))
      +:+ "," +:+ field "vcs" (appendString (Vcs r))
      +:+ "," +:+ field "vcs-config" secret
      +:+ "," +:+ field "url-pattern" (urlPatternEncoder (URLPatternPtr r))
      +:+ "," +:+ field "exclude-dot-files" (boolEncoder (ExcludeDotFiles r))
      +:+ "," +:+ field "enable-poll-updates"
                    (boolPtrEncoder (EnablePollUpdates r))
      +:+ "," +:+ field "enable-push-updates"
                    (boolPtrEncoder (EnablePushUpdates r))
      +:+ "}").

(** A [*Repo]. *)
Definition repoPtrEncoder (p : option Repo) : result string :=
  match p with
  | None => Ok "null"
  | Some r => repoEncoder r
  end.

(** The keys of a map in the order [json.Marshal] writes them:
    sorted bytewise. *)
Definition sortedKeys {A : Type} (m : gmap string A) : list string :=
  merge_sort String.le (map_to_list m).*1.

(** One [key:value] member of the object. *)
Definition memberEncoder (m : gmap string (option Repo)) (k : string)
  : result string :=
  v ← repoPtrEncoder (default None (m !! k));
  Ok (appendString k +:+ ":" +:+ v).

(** The members, separated by commas; the first error ends the encoding. *)
Fixpoint membersEncoder (m : gmap string (option Repo)) (ks : list string)
  : result string :=
  match ks with
  | [] => Ok ""
  | [k] => memberEncoder m k
  | k :: ks' =>
      x ← memberEncoder m k;
      xs ← membersEncoder m ks';
      Ok (x +:+ "," +:+ xs)
  end.

(** A [map[string]*Repo]. *)
Definition mapEncoder (m : option (gmap string (option Repo)))
  : result string :=
  match m with
  | None => Ok "null"
  | Some m =>
      members ← membersEncoder m (sortedKeys m);
      Ok ("{" +:+ members +:+ "}")
  end.

(** [json.Marshal], at the type [map[string]*Repo]. *)
Definition Marshal (v : option (gmap string (option Repo)))
  : ByteSlice * option error :=
  match mapEncoder v with
  | Ok s => (bytesOfString s, None)
  | Err e => (None, Some e)
  end.

End json.

(** ** The JSON projection *)

(** [ToJSONString]. *)
Definition ToJSONString (c : Config) : string * option error :=
  match json.Marshal (Repos c) with
  | (_, Some err) => ("", Some err)
  | (b, None) => (stringOfBytes b, None)
  end.

(** ** The loader *)

(** What [LoadFromFile] asks of the operating system and of the standard
    library: opening a file, decoding its JSON text into a [Config]
    (fields the text does not mention keep the value they had), and the
    [path/filepath] functions of the platform. *)
Record Sys : Type := mkSys {
  File : Type;
  os_Open : string -> result File;
  json_Decode : File -> Config -> Config * option error;
  filepath_IsAbs : string -> bool;
  filepath_Abs : string -> result string;
  filepath_Join : string -> string -> string;
  filepath_Dir : string -> string
}.

(** [for _, repo := range c.Repos { initRepo(repo) }]: ranging over a nil
    map does nothing; [initRepo] dereferences its argument at once, so a
    nil [*Repo] among the values panics. *)
Definition initRepos (repos : option (gmap string (option Repo)))
  : outcome (option (gmap string (option Repo))) :=
  match repos with
  | None => Return None
  | Some m =>
      if bool_decide (map_Forall (fun _ p => is_Some p) m)
      then Return (Some ((fun p : option Repo => initRepo <$> p) <$> m))
      else Panic nilDereference
  end.

(** [LoadFromFile]: the receiver [c] is mutated in place; the result is
    its final value together with the error returned ([None] is nil).
    The deferred [r.Close()] touches neither. *)
Definition LoadFromFile (sys : Sys) (filename : string) (c : Config)
  : outcome (Config * option error) :=
  match os_Open sys filename with
  | Err err => Return (c, Some err)
  | Ok r =>
      match json_Decode sys r c with
      | (c, Some err) => Return (c, Some err)
      | (c, None) =>
          let c := if decide (Title c = "")
                   then setTitle defaultTitle c else c in
          let resolved :=
            if negb (filepath_IsAbs sys (DbPath c))
            then
              match filepath_Abs sys
                      (filepath_Join sys (filepath_Dir sys filename)
                         (DbPath c)) with
              | Err err => Err err
              | Ok path => Ok (setDbPath path c)
              end
            else Ok c in
          match resolved with
          | Err err => Return (c, Some err)
          | Ok c =>
              match initRepos (Repos c) with
              | Panic msg => Panic msg
              | Return repos =>
                  Return (initConfig (setRepos repos c), None)
              end
          end
      end
  end.

(** ** [path/filepath] on Unix *)

Module filepath.

Definition Separator : ascii := "/"%char.

(** The elements between separators. *)
Fixpoint split (s : string) : list string :=
  match s with
  | EmptyString => [""]
  | String c s' =>
      if Ascii.eqb c Separator then "" :: split s'
      else match split s' with
           | [] => [String c ""]
           | x :: xs => String c x :: xs
           end
  end.

Fixpoint join (l : list string) : string :=
  match l with
  | [] => ""
  | [x] => x
  | x :: l' => x +:+ "/" +:+ join l'
  end.

(** The elements [Clean] keeps, innermost first: empty and [.]
    elements go, [..] removes the element before it, or is dropped at
    the root, or is kept at the head of a relative path. *)
Fixpoint cleanElements (rooted : bool) (elems kept : list string)
  : list string :=
  match elems with
  | [] => kept
  | e :: elems' =>
      if bool_decide (e = "") || bool_decide (e = ".")
      then cleanElements rooted elems' kept
      else if bool_decide (e = "..")
      then match kept with
           | k :: kept' =>
               if bool_decide (k = "..")
               then cleanElements rooted elems' (e :: kept)
               else cleanElements rooted elems' kept'
           | [] =>
               if rooted then cleanElements rooted elems' []
               else cleanElements rooted elems' [e]
           end
      else cleanElements rooted elems' (e :: kept)
  end.

Definition IsAbs (path : string) : bool := String.prefix "/" path.

Definition Clean (path : string) : string :=
  let rooted := IsAbs path in
  let out := (if rooted then "/" else "")
               +:+ join (rev (cleanElements rooted (split path) [])) in
  if bool_decide (out = "") then "." else out.

(** [Join] of two elements: empty elements before the first
    non-empty one are ignored. *)
Definition Join (a b : string) : string :=
  if negb (bool_decide (a = "")) then Clean (a +:+ "/" +:+ b)
  else if negb (bool_decide (b = "")) then Clean b
  else "".

(** [Dir]: all but the last element of the path, cleaned. *)
Definition Dir (path : string) : string :=
  match rev (split path) with
  | _ :: (_ :: _) as front => Clean (join (rev front) +:+ "/")
  | _ => Clean ""
  end.

(** [Abs], given what [os.Getwd] returns. *)
Definition Abs (getwd : result string) (path : string) : result string :=
  if IsAbs path then Ok (Clean path)
  else wd ← getwd; Ok (Join wd path).

End filepath.

(** A Unix system: the working directory, the files that can be opened
    and the JSON decoder are given. *)
Definition unixSys (F : Type) (open : string -> result F)
    (decode : F -> Config -> Config * option error)
    (getwd : result string) : Sys :=
  mkSys F open decode filepath.IsAbs (filepath.Abs getwd)
    filepath.Join filepath.Dir.

(** ** Notions used in the statements *)

(** [sub] occurs in [s]. *)
Definition substring_of (sub s : string) : Prop :=
  exists a b : string, s = a +:+ sub +:+ b.

(** The JSON text [{"x":1}]. *)
Definition payloadX1 : string :=
  "{" +:+ json.dquote +:+ "x" +:+ json.dquote +:+ ":1}".

(** A repository with its secret payload emptied: a payload that is
    present stays present, and holds no bytes. *)
Definition eraseSecret (r : Repo) : Repo :=
  setVcsConfigMessage ((fun _ : SecretMessage => None) <$> VcsConfigMessage r) r.

Definition eraseSecrets (repos : option (gmap string (option Repo)))
  : option (gmap string (option Repo)) :=
  (fun m : gmap string (option Repo) =>
     (fun p : option Repo => eraseSecret <$> p) <$> m) <$> repos.

(** How a [vcs-config] field is rendered. *)
Definition renderedSecret (p : option SecretMessage) : string :=
  match p with
  | None => "null"
  | Some _ => "{}"
  end.

(** ** Sample values *)

(** A repository hosted on Azure DevOps that sets nothing but its URL. *)
Definition azureRepo : Repo :=
  mkRepo "https://contoso.visualstudio.com/_git/app" 0 "" None None
    false None None.

(** The same repository with a url-pattern of which only [base-url] is
    set. *)
Definition azureRepoWithBase : Repo :=
  setURLPattern (Some (mkURLPattern "{url}/src/{path}{anchor}" "")) azureRepo.

(** A url-pattern, and a vcs-config whose text is the JSON rendering of
    that url-pattern. *)
Definition samplePattern : URLPattern := mkURLPattern "u" "a".

Definition patternShapedSecret : string :=
  json.urlPatternEncoder (Some samplePattern).

Definition leakyRepo : Repo :=
  mkRepo "https://example.com/r.git" 30000 "git"
    (Some (bytesOfString patternShapedSecret)) (Some samplePattern)
    false None None.

Definition leakyConfig : Config :=
  mkConfig "/data" "Hound" (Some {[ "r" := Some leakyRepo ]}) 2 "/healthz".

(** A configuration whose one repository declares no vcs-config. *)
Definition plainConfig : Config :=
  mkConfig "/data" "Hound" (Some {[ "r" := Some azureRepo ]}) 2 "/healthz".

(** Two configurations that differ in a secret payload (and in their
    title). *)
Definition secretRepo (secret : string) : Repo :=
  mkRepo "https://example.com/r.git" 0 "" (Some (bytesOfString secret)) None
    true (Some false) None.

Definition configWithSecret (title secret : string) : Config :=
  mkConfig "data" title
    (Some (<[ "a" := Some (secretRepo secret) ]> {[ "b" := Some azureRepo ]}))
    0 "".

(** A Unix system whose one file, [/a/b/config.json], decodes to
    [configWithSecret "" payloadX1]; the working directory is [/srv]. *)
Definition sampleSys : Sys :=
  unixSys unit
    (fun name => if bool_decide (name = "/a/b/config.json") then Ok tt
                 else Err (errors_New "open: no such file or directory"))
    (fun _ _ => (configWithSecret "" payloadX1, None))
    (Ok "/srv").

(** The same system, the file giving an absolute [dbpath] and a title,
    a number of indexers and a health-check URI of its own. *)
Definition sampleSysAbsolute : Sys :=
  unixSys unit
    (fun name => if bool_decide (name = "/a/b/config.json") then Ok tt
                 else Err (errors_New "open: no such file or directory"))
    (fun _ _ => (mkConfig "/abs/data" "Code" None 8 "/ping", None))
    (Ok "/srv").

(** The configuration [sampleSys] loads from [/a/b/config.json], and the
    one [sampleSysAbsolute] loads. *)
Definition loadedSample : Config :=
  match LoadFromFile sampleSys "/a/b/config.json" plainConfig with
  | Return (c, _) => c
  | Panic _ => plainConfig
  end.

Definition loadedSampleAbsolute : Config :=
  match LoadFromFile sampleSysAbsolute "/a/b/config.json" plainConfig with
  | Return (c, _) => c
  | Panic _ => plainConfig
  end.

(** ** Further notions and sample values *)

(** A repository with nothing left to default: a non-zero poll interval,
    a version-control kind, and a url-pattern with both templates. *)
Definition normalizedRepo (r : Repo) : Prop :=
  MsBetweenPolls r <> 0
  /\ Vcs r <> ""
  /\ exists p : URLPattern,
       URLPatternPtr r = Some p /\ BaseURL p <> "" /\ Anchor p <> "".

(** The [*Repo] a configuration has under a name: [c.Repos[name]], with
    whether the name is a key of the map. *)
Definition repoNamed (c : Config) (name : string) : option (option Repo) :=
  match Repos c with
  | None => None
  | Some m => m !! name
  end.

(** The Azure DevOps repository with a url-pattern object that sets
    neither template. *)
Definition azureRepoEmptyPattern : Repo :=
  setURLPattern (Some (mkURLPattern "" "")) azureRepo.

(** A Unix system whose every file decodes to a repository map that
    holds a nil [*Repo] under the name [r]. *)
Definition nilRepoSys : Sys :=
  unixSys unit (fun _ => Ok tt)
    (fun _ c => (setRepos (Some {[ "r" := None ]}) c, None)) (Ok "/srv").

(** A Unix system whose working directory cannot be determined; its
    files decode to [configWithSecret "" payloadX1], whose dbpath [data]
    is relative. *)
Definition lostSys : Sys :=
  unixSys unit (fun _ => Ok tt)
    (fun _ _ => (configWithSecret "" payloadX1, None))
    (Err (errors_New "getwd: no such file or directory")).

(** The configuration [lostSys] leaves behind when the path of the
    database cannot be resolved. *)
Definition lostSample : Config :=
  setTitle defaultTitle (configWithSecret "" payloadX1).

(** [sampleSys] with another title and another secret in its file. *)
Definition sampleSysOther : Sys :=
  unixSys unit (fun _ => Ok tt)
    (fun _ _ => (configWithSecret "Code" "[1,2,3]", None))
    (Ok "/home").

Definition loadedSampleOther : Config :=
  match LoadFromFile sampleSysOther "hound/config.json" leakyConfig with
  | Return (c, _) => c
  | Panic _ => leakyConfig
  end.

(** An element of a path: a string [filepath.split] leaves whole, that
    is, one without a separator. *)
Definition pathElement (e : string) : Prop := filepath.split e = [e].

(** A stack of kept elements that [filepath.cleanElements] rebuilds as
    it is when it reads the elements again: none is empty or [.], and
    every [..] is where one is kept. *)
Definition keptStack (rooted : bool) (kept : list string) : Prop :=
  Forall (fun e : string => e <> "" /\ e <> "." /\ pathElement e) kept
  /\ filepath.cleanElements rooted (rev kept) [] = kept.

(** * Properties *)

(** ** Strings *)

Lemma prefix_app (sub b : string) : String.prefix sub (sub +:+ b) = true.
Proof.
  induction sub as [|c sub IH]; simpl.
  - by destruct b.
  - destruct (ascii_dec c c); [exact IH | congruence].
Qed.

Lemma prefix_inv (sub s : string) :
  String.prefix sub s = true -> exists b, s = sub +:+ b.
Proof.
  revert s. induction sub as [|c sub IH]; intros s H.
  - by exists s.
  - destruct s as [|d s]; simpl in H; [discriminate|].
    destruct (ascii_dec c d) as [->|]; [|discriminate].
    destruct (IH _ H) as [b ->]. by exists b.
Qed.

Lemma Contains_unfold (s sub : string) :
  Contains s sub =
  String.prefix sub s ||
  match s with
  | EmptyString => false
  | String _ s' => Contains s' sub
  end.
Proof. by destruct s. Qed.

(** [Contains] decides [substring_of]. *)
Lemma Contains_spec (s sub : string) :
  Contains s sub = true <-> substring_of sub s.
Proof.
  split.
  - induction s as [|c s IH]; rewrite Contains_unfold; intros H;
      apply orb_true_iff in H as [H|H].
    + destruct (prefix_inv _ _ H) as [b ->]. by exists "", b.
    + discriminate.
    + destruct (prefix_inv _ _ H) as [b Hb]. by exists "", b.
    + destruct (IH H) as (a & b & ->). by exists (String c a), b.
  - intros (a & b & ->). induction a as [|c a IH].
    + change ("" +:+ sub +:+ b) with (sub +:+ b).
      by rewrite Contains_unfold, prefix_app.
    + change (String c a +:+ sub +:+ b) with (String c (a +:+ sub +:+ b)).
      rewrite Contains_unfold, IH. apply orb_true_r.
Qed.

Lemma string_app_assoc (a b c : string) : (a +:+ b) +:+ c = a +:+ b +:+ c.
Proof.
  induction a as [|x a IH]; [reflexivity|].
  change (String x ((a +:+ b) +:+ c) = String x (a +:+ b +:+ c)).
  by rewrite IH.
Qed.

Lemma string_app_nil_r (a : string) : a +:+ "" = a.
Proof.
  induction a as [|x a IH]; [reflexivity|].
  change (String x (a +:+ "") = String x a). by rewrite IH.
Qed.

Lemma substring_of_trans (s t u : string) :
  substring_of s t -> substring_of t u -> substring_of s u.
Proof.
  intros (a & b & ->) (a' & b' & ->).
  exists (a' +:+ a), (b +:+ b'). by rewrite !string_app_assoc.
Qed.

Lemma substring_of_app_l (sub s a : string) :
  substring_of sub s -> substring_of sub (a +:+ s).
Proof.
  intros (x & y & ->). exists (a +:+ x), y. by rewrite string_app_assoc.
Qed.

Lemma substring_of_app_r (sub s b : string) :
  substring_of sub s -> substring_of sub (s +:+ b).
Proof.
  intros (x & y & ->). exists x, (y +:+ b). by rewrite !string_app_assoc.
Qed.

Lemma substring_of_refl (s : string) : substring_of s s.
Proof. exists "", "". by rewrite string_app_nil_r. Qed.

(** ** The secret envelope *)

(** C1. [MarshalJSON] returns the two bytes [{}] and no error, whatever
    the receiver holds; a [SecretMessage] that [UnmarshalJSON] filled
    with the text [{"x":1}] holds that text and still marshals to [{}],
    which is not that text. *)
Theorem MarshalJSON_always_empty_object :
  (forall s : option SecretMessage, MarshalJSON s = (Some [x7b; x7d], None))
  /\ (forall old : SecretMessage,
        exists s' : SecretMessage,
          UnmarshalJSON (Some old) (bytesOfString payloadX1)
            = Return (Some s', None)
          /\ stringOfBytes s' = payloadX1
          /\ MarshalJSON (Some s') = (bytesOfString "{}", None)
          /\ stringOfBytes (MarshalJSON (Some s')).1 <> payloadX1).
Proof.
  split; [done|].
  intros old. exists (bytesOfString payloadX1). repeat split.
  - by destruct old.
  - discriminate.
Qed.

(** What [UnmarshalJSON] stores, [VcsConfig] returns: with a target and
    some bytes [bs], the call returns no error, the target then holds
    exactly [bs], and the accessor of a repository pointing to it
    returns them. *)
Lemma UnmarshalJSON_then_VcsConfig (old : SecretMessage) (bs : list byte)
    (r : Repo) :
  exists s' : SecretMessage,
    UnmarshalJSON (Some old) (Some bs) = Return (Some s', None)
    /\ sliceBytes s' = bs
    /\ VcsConfig (setVcsConfigMessage (Some s') r) = s'.
Proof.
  exists (append (reslice00 old) bs). repeat split.
  destruct old, bs; done.
Qed.

(** [VcsConfig] is nil when the repository has no vcs-config. *)
Lemma VcsConfig_absent (r : Repo) :
  VcsConfigMessage r = None -> VcsConfig r = None.
Proof. unfold VcsConfig. by intros ->. Qed.

(** C8. Without a receiving target and with bytes to store,
    [UnmarshalJSON] panics on the nil dereference rather than return an
    error; the error it has for that case is returned instead when the
    bytes are nil, with or without a target. *)
Theorem UnmarshalJSON_nil_target_panics :
  UnmarshalJSON None (bytesOfString payloadX1) = Panic nilDereference
  /\ (forall bs : list byte, UnmarshalJSON None (Some bs) = Panic nilDereference)
  /\ (forall s : option SecretMessage,
        UnmarshalJSON s None
          = Return (s, Some (errors_New
                               "SecretMessage: UnmarshalJSON on nil pointer"))).
Proof. done. Qed.

(** ** Repository defaults *)

(** Case analysis on the tests [initRepo] and [initConfig] make. *)
Ltac initRepo_cases :=
  repeat (first [case_decide | case_match]; simpl in *; simplify_eq;
          try done).

(** C5. [initRepo] sets a zero poll interval to 30000 and an empty
    version-control kind to [git]; any other value of either field is
    kept. *)
Theorem initRepo_poll_interval_and_vcs (r : Repo) :
  MsBetweenPolls (initRepo r)
    = (if decide (MsBetweenPolls r = 0) then 30000 else MsBetweenPolls r)
  /\ Vcs (initRepo r) = (if decide (Vcs r = "") then "git" else Vcs r).
Proof.
  unfold initRepo. destruct r as [u ms v sec pat x poll push]; simpl.
  repeat case_decide; repeat case_match; simpl in *; done.
Qed.

(** C3. With no url-pattern, [initRepo] chooses the pair of templates by
    whether [visualstudio.com] occurs in the URL: the Azure DevOps pair
    if it does, the generic pair if it does not. *)
Theorem initRepo_absent_url_pattern (r : Repo) :
  URLPatternPtr r = None ->
  (substring_of "visualstudio.com" (URL r) ->
   URLPatternPtr (initRepo r)
     = Some (mkURLPattern
               "{url}/?path=%2F{path}&version=GBmaster&line={anchor}"
               "&line={line}"))
  /\ (~ substring_of "visualstudio.com" (URL r) ->
      URLPatternPtr (initRepo r)
        = Some (mkURLPattern "{url}/blob/master/{path}{anchor}" "#L{line}")).
Proof.
  intros Hnone. unfold initRepo.
  destruct r as [u ms v sec pat x poll push]; simpl in *; subst pat.
  split; intros Hsub.
  - apply Contains_spec in Hsub.
    repeat case_decide; simpl; rewrite Hsub; done.
  - destruct (Contains u "visualstudio.com") eqn:E.
    + apply Contains_spec in E. contradiction.
    + repeat case_decide; simpl; rewrite E; done.
Qed.

(** C4. With a url-pattern of which exactly one of base-url and anchor
    is empty, [initRepo] gives the empty one its generic default and
    keeps the other as supplied, whatever the URL is. *)
Theorem initRepo_partial_url_pattern (r : Repo) (p : URLPattern) :
  URLPatternPtr r = Some p ->
  (BaseURL p = "" /\ Anchor p <> "") \/ (BaseURL p <> "" /\ Anchor p = "") ->
  URLPatternPtr (initRepo r)
    = Some (if decide (BaseURL p = "")
            then mkURLPattern "{url}/blob/master/{path}{anchor}" (Anchor p)
            else mkURLPattern (BaseURL p) "#L{line}").
Proof.
  intros Hp Hone. unfold initRepo.
  destruct r as [u ms v sec pat x poll push]; simpl in *; subst pat.
  destruct p as [b a]; simpl in *.
  destruct Hone as [[-> Ha]|[Hb ->]]; initRepo_cases.
Qed.

(** C6. [PollUpdatesEnabled] is the supplied flag, or true when there is
    none; [PushUpdatesEnabled] is the supplied flag, or false when there
    is none; [initRepo] leaves both flags as they were. *)
Theorem update_flags_tri_state (r : Repo) :
  PollUpdatesEnabled r
    = match EnablePollUpdates r with None => true | Some b => b end
  /\ PushUpdatesEnabled r
       = match EnablePushUpdates r with None => false | Some b => b end
  /\ EnablePollUpdates (initRepo r) = EnablePollUpdates r
  /\ EnablePushUpdates (initRepo r) = EnablePushUpdates r.
Proof.
  split; [done|]. split; [done|].
  unfold initRepo. destruct r as [u ms v sec pat x poll push]; simpl.
  repeat case_decide; repeat case_match; simpl; done.
Qed.

(** C10. [initRepo] is idempotent, and it leaves the URL, the
    exclude-dot-files flag, the two update flags and the secret payload
    as they were. *)
Theorem initRepo_idempotent (r : Repo) :
  initRepo (initRepo r) = initRepo r
  /\ URL (initRepo r) = URL r
  /\ ExcludeDotFiles (initRepo r) = ExcludeDotFiles r
  /\ EnablePollUpdates (initRepo r) = EnablePollUpdates r
  /\ EnablePushUpdates (initRepo r) = EnablePushUpdates r
  /\ VcsConfigMessage (initRepo r) = VcsConfigMessage r.
Proof.
  unfold initRepo. destruct r as [u ms v sec pat x poll push]; simpl.
  destruct pat as [[b a]|]; simpl;
    repeat (case_decide; simpl in * );
    repeat (case_match; simpl in * );
    repeat split; simplify_eq; try done.
Qed.

(** ** The JSON projection *)

Lemma stringOfBytes_bytesOfString (s : string) :
  stringOfBytes (bytesOfString s) = s.
Proof. apply string_of_list_byte_of_string. Qed.

(** A [*SecretMessage] is written as [{}], or as [null] when nil. *)
Lemma marshalerEncoder_rendered (p : option SecretMessage) :
  json.marshalerEncoder p = Ok (renderedSecret p).
Proof. by destruct p. Qed.

Lemma repoEncoder_eraseSecret (r : Repo) :
  json.repoEncoder (eraseSecret r) = json.repoEncoder r.
Proof.
  unfold json.repoEncoder. rewrite !marshalerEncoder_rendered.
  destruct r as [u ms v [sec|] pat x poll push]; done.
Qed.

Lemma repoPtrEncoder_eraseSecret (p : option Repo) :
  json.repoPtrEncoder (eraseSecret <$> p) = json.repoPtrEncoder p.
Proof. destruct p; [apply repoEncoder_eraseSecret | done]. Qed.

Section encoder_fmap.
Context (f : option Repo -> option Repo).
Hypothesis encoder_f : forall p, json.repoPtrEncoder (f p) = json.repoPtrEncoder p.

Lemma sortedKeys_fmap (m : gmap string (option Repo)) :
  json.sortedKeys (f <$> m) = json.sortedKeys m.
Proof.
  unfold json.sortedKeys.
  by rewrite map_to_list_fmap, <- list_fmap_compose.
Qed.

Lemma memberEncoder_fmap (m : gmap string (option Repo)) (k : string) :
  json.memberEncoder (f <$> m) k = json.memberEncoder m k.
Proof.
  unfold json.memberEncoder. rewrite lookup_fmap.
  destruct (m !! k) as [p|]; simpl; by rewrite ?encoder_f.
Qed.

Lemma membersEncoder_fmap (m : gmap string (option Repo))
    (ks : list string) :
  json.membersEncoder (f <$> m) ks = json.membersEncoder m ks.
Proof.
  induction ks as [|k ks IH]; [done|].
  destruct ks as [|k' ks]; [apply memberEncoder_fmap|].
  change (json.membersEncoder (f <$> m) (k :: k' :: ks))
    with (x ← json.memberEncoder (f <$> m) k;
          xs ← json.membersEncoder (f <$> m) (k' :: ks);
          Ok (x +:+ "," +:+ xs)).
  by rewrite memberEncoder_fmap, IH.
Qed.
End encoder_fmap.

(** The encoding of the repository map does not read the payloads. *)
Lemma mapEncoder_eraseSecrets (repos : option (gmap string (option Repo))) :
  json.mapEncoder (eraseSecrets repos) = json.mapEncoder repos.
Proof.
  destruct repos as [m|]; [|done]. simpl.
  rewrite sortedKeys_fmap, membersEncoder_fmap;
    auto using repoPtrEncoder_eraseSecret.
Qed.

(** The encoding of the repository map cannot fail. *)
Lemma repoPtrEncoder_Ok (p : option Repo) :
  exists s, json.repoPtrEncoder p = Ok s.
Proof.
  destruct p as [r|]; [|by eexists]. unfold json.repoPtrEncoder, json.repoEncoder.
  rewrite marshalerEncoder_rendered. by eexists.
Qed.

Lemma memberEncoder_Ok (m : gmap string (option Repo)) (k : string) :
  exists s, json.memberEncoder m k = Ok s.
Proof.
  unfold json.memberEncoder.
  destruct (repoPtrEncoder_Ok (default None (m !! k))) as [s ->]. by eexists.
Qed.

Lemma membersEncoder_Ok (m : gmap string (option Repo)) (ks : list string) :
  exists s, json.membersEncoder m ks = Ok s.
Proof.
  induction ks as [|k ks [s IH]]; [by eexists|].
  destruct ks as [|k' ks]; [apply memberEncoder_Ok|].
  change (json.membersEncoder m (k :: k' :: ks))
    with (x ← json.memberEncoder m k;
          xs ← json.membersEncoder m (k' :: ks);
          Ok (x +:+ "," +:+ xs)).
  destruct (memberEncoder_Ok m k) as [x ->]. rewrite IH. by eexists.
Qed.

Lemma mapEncoder_Ok (repos : option (gmap string (option Repo))) :
  exists s, json.mapEncoder repos = Ok s.
Proof.
  destruct repos as [m|]; [|by eexists]. simpl.
  destruct (membersEncoder_Ok m (json.sortedKeys m)) as [s ->]. by eexists.
Qed.

Lemma ToJSONString_mapEncoder (c : Config) (s : string) :
  json.mapEncoder (Repos c) = Ok s -> ToJSONString c = (s, None).
Proof.
  intros H. unfold ToJSONString, json.Marshal. rewrite H.
  by rewrite stringOfBytes_bytesOfString.
Qed.

(** Every member of the object occurs in the text of the members. *)
Lemma membersEncoder_member (m : gmap string (option Repo))
    (ks : list string) (out : string) (k : string) :
  json.membersEncoder m ks = Ok out -> k ∈ ks ->
  exists x, json.memberEncoder m k = Ok x /\ substring_of x out.
Proof.
  revert out. induction ks as [|k0 ks IH]; intros out Hout Hin.
  - by apply elem_of_nil in Hin.
  - destruct ks as [|k1 ks].
    + apply list_elem_of_singleton in Hin as ->.
      exists out. split; [done | apply substring_of_refl].
    + change (json.membersEncoder m (k0 :: k1 :: ks))
        with (x ← json.memberEncoder m k0;
              xs ← json.membersEncoder m (k1 :: ks);
              Ok (x +:+ "," +:+ xs)) in Hout.
      destruct (json.memberEncoder m k0) as [x|] eqn:Hx; [|done].
      destruct (json.membersEncoder m (k1 :: ks)) as [xs|] eqn:Hxs; [|done].
      simpl in Hout. injection Hout as <-.
      apply elem_of_cons in Hin as [->|Hin].
      * exists x. split; [done|]. apply substring_of_app_r, substring_of_refl.
      * destruct (IH xs eq_refl Hin) as (y & Hy & Hsub).
        exists y. split; [done|]. by do 2 apply substring_of_app_l.
Qed.

(** The text of a repository holds its [vcs-config] field, rendered
    as [{}] or [null]. *)
Lemma repoEncoder_vcs_config (r : Repo) (out : string) :
  json.repoEncoder r = Ok out ->
  substring_of (json.field "vcs-config" (renderedSecret (VcsConfigMessage r)))
    out.
Proof.
  unfold json.repoEncoder. rewrite marshalerEncoder_rendered. simpl.
  intros [= <-]. do 7 apply substring_of_app_l.
  apply substring_of_app_r, substring_of_refl.
Qed.

Lemma elem_of_sortedKeys {A : Type} (m : gmap string A) (k : string) (v : A) :
  m !! k = Some v -> k ∈ json.sortedKeys m.
Proof.
  intros H. unfold json.sortedKeys. rewrite merge_sort_Permutation.
  apply list_elem_of_fmap. exists (k, v). split; [done|].
  by apply elem_of_map_to_list.
Qed.

(** C2, as the code has it. Two configurations whose repository maps
    agree once the bytes of every secret payload are erased have the
    same JSON projection, whatever their other fields are; the
    projection returns no error; and for each repository of the map its
    text holds the [vcs-config] field rendered as [{}] when a payload is
    present and as [null] when there is none. *)
Theorem ToJSONString_masks_secrets (c1 c2 : Config) :
  eraseSecrets (Repos c1) = eraseSecrets (Repos c2) ->
  ToJSONString c1 = ToJSONString c2
  /\ (ToJSONString c1).2 = None
  /\ forall (m : gmap string (option Repo)) (name : string) (r : Repo),
       Repos c1 = Some m -> m !! name = Some (Some r) ->
       Contains (ToJSONString c1).1
         (json.field "vcs-config" (renderedSecret (VcsConfigMessage r)))
       = true.
Proof.
  intros Herase.
  destruct (mapEncoder_Ok (Repos c1)) as [s Hs].
  assert (json.mapEncoder (Repos c2) = Ok s) as Hs2.
  { by rewrite <- mapEncoder_eraseSecrets, <- Herase, mapEncoder_eraseSecrets. }
  rewrite (ToJSONString_mapEncoder _ _ Hs), (ToJSONString_mapEncoder _ _ Hs2).
  split; [done|]. split; [done|].
  intros m name r Hm Hr. simpl. apply Contains_spec.
  rewrite Hm in Hs. simpl in Hs.
  destruct (json.membersEncoder m (json.sortedKeys m)) as [members|] eqn:Hmem;
    [|done].
  simpl in Hs. injection Hs as <-.
  destruct (membersEncoder_member m _ members name Hmem
              (elem_of_sortedKeys m name _ Hr)) as (x & Hx & Hsub).
  unfold json.memberEncoder in Hx. rewrite Hr in Hx. simpl in Hx.
  destruct (json.repoEncoder r) as [v|] eqn:Hv; [|done].
  simpl in Hx. injection Hx as <-.
  apply substring_of_app_l, substring_of_app_r.
  eapply substring_of_trans; [|exact Hsub].
  do 2 apply substring_of_app_l. by apply repoEncoder_vcs_config.
Qed.

(** Witness of C2: two configurations that differ in a payload and in
    their title. *)
Lemma ToJSONString_masks_secrets_witness :
  eraseSecrets (Repos (configWithSecret "A" payloadX1))
    = eraseSecrets (Repos (configWithSecret "B" "[1,2,3]"))
  /\ ToJSONString (configWithSecret "A" payloadX1)
       = ToJSONString (configWithSecret "B" "[1,2,3]").
Proof.
  split; [reflexivity|].
  apply (ToJSONString_masks_secrets (configWithSecret "A" payloadX1)
           (configWithSecret "B" "[1,2,3]")).
  reflexivity.
Defined.

(** C2, as stated, fails. The projection of [leakyConfig] holds the text
    of the non-empty secret payload of its repository, because the
    url-pattern of that repository is written with the same text; and
    the projection of [plainConfig], whose repository has no payload,
    has no [vcs-config] field rendered as [{}]. *)
Lemma ToJSONString_payload_text_counterexample :
  Repos leakyConfig = Some {[ "r" := Some leakyRepo ]}
  /\ VcsConfig leakyRepo = bytesOfString patternShapedSecret
  /\ sliceBytes (VcsConfig leakyRepo) <> []
  /\ Contains (ToJSONString leakyConfig).1
       (stringOfBytes (VcsConfig leakyRepo)) = true
  /\ Repos plainConfig = Some {[ "r" := Some azureRepo ]}
  /\ Contains (ToJSONString plainConfig).1 (json.field "vcs-config" "{}")
     = false.
Proof. repeat split; try done; vm_compute; done. Qed.

(** Witness of C3: a repository on Azure DevOps with no url-pattern. *)
Lemma initRepo_absent_url_pattern_witness :
  URLPatternPtr azureRepo = None
  /\ substring_of "visualstudio.com" (URL azureRepo)
  /\ URLPatternPtr (initRepo azureRepo)
       = Some (mkURLPattern
                 "{url}/?path=%2F{path}&version=GBmaster&line={anchor}"
                 "&line={line}").
Proof.
  assert (substring_of "visualstudio.com" (URL azureRepo)) as Hsub.
  { exists "https://contoso.", "/_git/app". reflexivity. }
  split; [reflexivity|]. split; [exact Hsub|].
  exact (proj1 (initRepo_absent_url_pattern azureRepo eq_refl) Hsub).
Defined.

(** Witness of C4: the same repository with only [base-url] supplied. *)
Lemma initRepo_partial_url_pattern_witness :
  URLPatternPtr azureRepoWithBase
    = Some (mkURLPattern "{url}/src/{path}{anchor}" "")
  /\ Contains (URL azureRepoWithBase) "visualstudio.com" = true
  /\ URLPatternPtr (initRepo azureRepoWithBase)
       = Some (mkURLPattern "{url}/src/{path}{anchor}" "#L{line}").
Proof.
  split; [reflexivity|]. split; [reflexivity|].
  apply (initRepo_partial_url_pattern azureRepoWithBase
           (mkURLPattern "{url}/src/{path}{anchor}" "")).
  - reflexivity.
  - right. split; [discriminate | reflexivity].
Defined.

(** ** [path/filepath] on Unix *)

Lemma split_not_nil (s : string) : filepath.split s <> [].
Proof.
  induction s as [|c s IH]; simpl; [done|].
  destruct (Ascii.eqb c filepath.Separator); [done|].
  by destruct (filepath.split s).
Qed.

Lemma split_app (a b : string) :
  filepath.split (a +:+ "/" +:+ b)
  = (filepath.split a ++ filepath.split b)%list.
Proof.
  induction a as [|c a IH]; [reflexivity|].
  change (String c a +:+ "/" +:+ b) with (String c (a +:+ "/" +:+ b)).
  simpl. rewrite IH. destruct (Ascii.eqb c filepath.Separator); [done|].
  pose proof (split_not_nil a). by destruct (filepath.split a).
Qed.

Lemma split_elements (s : string) : Forall pathElement (filepath.split s).
Proof.
  induction s as [|c s IH]; simpl; [by constructor|].
  destruct (Ascii.eqb c filepath.Separator) eqn:E; [by constructor|].
  pose proof (split_not_nil s).
  destruct (filepath.split s) as [|x xs]; [done|].
  apply Forall_cons in IH as [Hx Hxs]. constructor; [|done].
  unfold pathElement in *. simpl. by rewrite E, Hx.
Qed.

(** Splitting undoes joining. *)
Lemma split_join (es : list string) :
  es <> [] -> Forall pathElement es -> filepath.split (filepath.join es) = es.
Proof.
  induction es as [|x es IH]; [done|]. intros _ Hall.
  apply Forall_cons in Hall as [Hx Hes].
  destruct es as [|y es]; [exact Hx|].
  change (filepath.join (x :: y :: es))
    with (x +:+ "/" +:+ filepath.join (y :: es)).
  rewrite split_app, Hx, IH; done.
Qed.

Lemma cleanElements_app (rooted : bool) (l1 l2 kept : list string) :
  filepath.cleanElements rooted (l1 ++ l2) kept
  = filepath.cleanElements rooted l2 (filepath.cleanElements rooted l1 kept).
Proof.
  revert kept. induction l1 as [|e l1 IH]; intros kept; [done|]. simpl.
  repeat case_match; apply IH.
Qed.

(** Pushing an element as [cleanElements] does keeps the stack one it
    rebuilds. *)
Lemma keptStack_push (rooted : bool) (e : string) (k : list string) :
  e <> "" -> e <> "." -> pathElement e ->
  (k = [] /\ (e = ".." -> rooted = false)
   \/ exists (t : string) (k' : list string),
        k = t :: k' /\ (e = ".." -> t = "..")) ->
  keptStack rooted k -> keptStack rooted (e :: k).
Proof.
  intros E1 E2 He Hcase [Hall Hfix]. split; [by constructor|].
  simpl. rewrite cleanElements_app, Hfix. simpl.
  rewrite (bool_decide_eq_false_2 _ E1), (bool_decide_eq_false_2 _ E2).
  simpl. case_bool_decide as E3; [|done].
  destruct Hcase as [[-> Hr]|(t & k' & -> & Ht)].
  - by rewrite (Hr E3).
  - rewrite (Ht E3). by rewrite bool_decide_eq_true_2.
Qed.

Lemma cleanElements_keptStack (rooted : bool) (elems kept : list string) :
  Forall pathElement elems -> keptStack rooted kept ->
  keptStack rooted (filepath.cleanElements rooted elems kept).
Proof.
  revert kept. induction elems as [|e elems IH]; intros kept Hel Hk; [done|].
  apply Forall_cons in Hel as [He Hels]. simpl.
  destruct (bool_decide (e = "")) eqn:E1; simpl; [by apply IH|].
  destruct (bool_decide (e = ".")) eqn:E2; simpl; [by apply IH|].
  apply bool_decide_eq_false in E1, E2.
  case_bool_decide as E3.
  - destruct kept as [|k kept'].
    + destruct rooted eqn:Er; [by apply IH|].
      apply IH; [done|]. apply keptStack_push; try done. by left.
    + case_bool_decide as E4.
      * apply IH; [done|]. apply keptStack_push; try done.
        right. by exists k, kept'.
      * apply IH; [done|]. destruct Hk as [Hall Hfix].
        apply Forall_cons in Hall as [(Hk1 & Hk2 & Hk3) Hall'].
        split; [done|].
        simpl in Hfix. rewrite cleanElements_app in Hfix. simpl in Hfix.
        rewrite (bool_decide_eq_false_2 _ Hk1), (bool_decide_eq_false_2 _ Hk2),
          (bool_decide_eq_false_2 _ E4) in Hfix.
        simpl in Hfix. by injection Hfix.
  - apply IH; [done|]. apply keptStack_push; try done.
    destruct kept as [|t k']; [by left|right]. by exists t, k'.
Qed.

Lemma IsAbs_String (c : ascii) (y y' : string) :
  filepath.IsAbs (String c y) = filepath.IsAbs (String c y').
Proof.
  unfold filepath.IsAbs.
  change (String.prefix "/" (String c y))
    with (if ascii_dec "/" c then String.prefix "" y else false).
  change (String.prefix "/" (String c y'))
    with (if ascii_dec "/" c then String.prefix "" y' else false).
  destruct (ascii_dec "/" c); [|done]. by destruct y, y'.
Qed.

Lemma pathElement_not_rooted (e : string) :
  e <> "" -> pathElement e -> filepath.IsAbs e = false.
Proof.
  intros Hne He. destruct (filepath.IsAbs e) eqn:E; [|done].
  destruct (prefix_inv _ _ E) as [t ->]. unfold pathElement in He.
  change ("/" +:+ t) with (String "/" t) in *. simpl in He. done.
Qed.

(** [Clean] returns what it makes of a stack it rebuilds. *)
Lemma Clean_of_keptStack (rooted : bool) (kept : list string)
    (out : string) :
  keptStack rooted kept ->
  out = (if rooted then "/" else "") +:+ filepath.join (rev kept) ->
  out <> "" ->
  filepath.Clean out = out.
Proof.
  intros [Hall Hfix] -> Hout.
  assert (Forall (fun e => e <> "" /\ e <> "." /\ pathElement e) (rev kept))
    as Hrev.
  { by apply Forall_rev. }
  assert (Forall pathElement (rev kept)) as Hel.
  { eapply Forall_impl; [exact Hrev|]. by intros e (_ & _ & He). }
  destruct rooted.
  - change ("/" +:+ filepath.join (rev kept))
      with (String "/" (filepath.join (rev kept))) in *.
    assert (filepath.IsAbs (String "/" (filepath.join (rev kept))) = true)
      as Habs.
    { change (String "/" (filepath.join (rev kept)))
        with ("/" +:+ filepath.join (rev kept)).
      apply prefix_app. }
    unfold filepath.Clean. rewrite Habs.
    assert (filepath.cleanElements true
              (filepath.split (String "/" (filepath.join (rev kept)))) []
            = kept) as ->.
    { change (filepath.split (String "/" (filepath.join (rev kept))))
        with ("" :: filepath.split (filepath.join (rev kept))).
      destruct (rev kept) as [|x xs] eqn:E.
      - apply (f_equal (@rev string)) in E. rewrite rev_involutive in E.
        by rewrite E.
      - rewrite split_join by done. exact Hfix. }
    change ("/" +:+ filepath.join (rev kept))
      with (String "/" (filepath.join (rev kept))).
    by rewrite bool_decide_eq_false_2.
  - change ("" +:+ filepath.join (rev kept))
      with (filepath.join (rev kept)) in *.
    destruct (rev kept) as [|x xs] eqn:E; [done|].
    apply Forall_cons in Hrev as [(Hx1 & _ & Hx2) _].
    assert (filepath.IsAbs (filepath.join (x :: xs)) = false) as Hrel.
    { destruct x as [|c x]; [done|].
      rewrite <- (pathElement_not_rooted (String c x) Hx1 Hx2).
      destruct xs; [done|]. apply IsAbs_String. }
    unfold filepath.Clean. rewrite Hrel, split_join, Hfix, E by done.
    change ("" +:+ filepath.join (x :: xs)) with (filepath.join (x :: xs)).
    by rewrite bool_decide_eq_false_2.
Qed.

(** A cleaned path is its own cleaned form. *)
Lemma Clean_idempotent (path : string) :
  filepath.Clean (filepath.Clean path) = filepath.Clean path.
Proof.
  pose proof (cleanElements_keptStack (filepath.IsAbs path)
                (filepath.split path) [] (split_elements path)
                (conj (Forall_nil_2 _) eq_refl)) as Hok.
  unfold filepath.Clean at 2 3.
  case_bool_decide as Hout; [reflexivity|].
  by eapply Clean_of_keptStack.
Qed.

Lemma Clean_not_empty (path : string) : filepath.Clean path <> "".
Proof. unfold filepath.Clean. by case_bool_decide. Qed.

Lemma Dir_not_empty (path : string) : filepath.Dir path <> "".
Proof. unfold filepath.Dir. repeat case_match; apply Clean_not_empty. Qed.

Lemma Join_not_empty (a b : string) :
  a <> "" -> filepath.Join a b = filepath.Clean (a +:+ "/" +:+ b).
Proof. intros Ha. unfold filepath.Join. by rewrite bool_decide_eq_false_2. Qed.

(** [Clean] keeps a rooted path rooted. *)
Lemma IsAbs_Clean (path : string) :
  filepath.IsAbs path = true -> filepath.IsAbs (filepath.Clean path) = true.
Proof.
  intros H. unfold filepath.Clean. rewrite H.
  destruct (filepath.join _) as [|ch rest]; reflexivity.
Qed.

Lemma IsAbs_app (a b : string) :
  filepath.IsAbs a = true -> filepath.IsAbs (a +:+ b) = true.
Proof.
  intros H. destruct (prefix_inv _ _ H) as [t ->].
  unfold filepath.IsAbs. rewrite string_app_assoc. apply prefix_app.
Qed.

Lemma IsAbs_Join (a b : string) :
  filepath.IsAbs a = true -> filepath.IsAbs (filepath.Join a b) = true.
Proof.
  intros H. rewrite Join_not_empty.
  - by apply IsAbs_Clean, IsAbs_app.
  - intros ->. discriminate H.
Qed.

(** The directory of a rooted path is rooted. *)
Lemma IsAbs_Dir (path : string) :
  filepath.IsAbs path = true -> filepath.IsAbs (filepath.Dir path) = true.
Proof.
  intros H. destruct (prefix_inv _ _ H) as [t ->]. unfold filepath.Dir.
  change (filepath.split ("/" +:+ t)) with ("" :: filepath.split t).
  change (rev ("" :: filepath.split t))
    with (rev (filepath.split t) ++ [""])%list.
  destruct (rev (filepath.split t)) as [|y ys] eqn:E.
  { apply (f_equal (@rev string)) in E. rewrite rev_involutive in E.
    by destruct (split_not_nil t). }
  change ((y :: ys) ++ [""])%list with (y :: (ys ++ [""]))%list.
  destruct (ys ++ [""])%list as [|z zs] eqn:E2.
  { symmetry in E2. by apply app_cons_not_nil in E2. }
  rewrite <- E2, rev_app_distr. apply IsAbs_Clean.
  change (rev [""] ++ rev ys)%list with ("" :: rev ys).
  destruct (rev ys) as [|x xs]; [reflexivity|].
  change (filepath.join ("" :: x :: xs))
    with ("/" +:+ filepath.join (x :: xs)).
  apply IsAbs_app, prefix_app.
Qed.

(** What [Abs] returns for a non-empty path is in cleaned form. *)
Lemma Abs_cleaned (getwd : result string) (path out : string) :
  path <> "" -> filepath.Abs getwd path = Ok out -> filepath.Clean out = out.
Proof.
  intros Hne. unfold filepath.Abs.
  destruct (filepath.IsAbs path).
  - intros [= <-]. apply Clean_idempotent.
  - destruct getwd as [wd|]; simpl; [|done]. intros [= <-].
    unfold filepath.Join. repeat case_bool_decide; simpl;
      try apply Clean_idempotent. done.
Qed.

(** ** The loader *)

Lemma initConfig_DbPath (c : Config) : DbPath (initConfig c) = DbPath c.
Proof. unfold initConfig. by initRepo_cases. Qed.

Lemma initConfig_Title (c : Config) : Title (initConfig c) = Title c.
Proof. unfold initConfig. by initRepo_cases. Qed.

(** What a call of [LoadFromFile] that returns no error went through. *)
Lemma LoadFromFile_success_inv (sys : Sys) (filename : string)
    (c c' : Config) :
  LoadFromFile sys filename c = Return (c', None) ->
  exists (r : File sys) (c1 : Config) (path : string)
         (repos : option (gmap string (option Repo))),
    os_Open sys filename = Ok r
    /\ json_Decode sys r c = (c1, None)
    /\ (filepath_IsAbs sys (DbPath c1) = true -> path = DbPath c1)
    /\ (filepath_IsAbs sys (DbPath c1) = false ->
        filepath_Abs sys
          (filepath_Join sys (filepath_Dir sys filename) (DbPath c1))
        = Ok path)
    /\ initRepos (Repos c1) = Return repos
    /\ c' = initConfig
              (setRepos repos
                 (setDbPath path
                    (if decide (Title c1 = "")
                     then setTitle defaultTitle c1 else c1))).
Proof.
  unfold LoadFromFile. intros H.
  destruct (os_Open sys filename) as [r|] eqn:Hopen; [|done].
  destruct (json_Decode sys r c) as [c1 [e|]] eqn:Hdec; [done|].
  set (c2 := if decide (Title c1 = "") then setTitle defaultTitle c1 else c1)
    in *.
  assert (DbPath c2 = DbPath c1) as Hdb by (subst c2; by case_decide).
  assert (Repos c2 = Repos c1) as Hrepos by (subst c2; by case_decide).
  rewrite Hdb in H.
  destruct (filepath_IsAbs sys (DbPath c1)) eqn:Habs; simpl in H.
  - rewrite Hrepos in H.
    destruct (initRepos (Repos c1)) as [repos|] eqn:Hinit; [|done].
    injection H as <-.
    exists r, c1, (DbPath c1), repos. repeat split; try done.
    + intros Hrel. by rewrite Habs in Hrel.
    + fold c2. rewrite <- Hdb. by destruct c2.
  - destruct (filepath_Abs sys _) as [path|] eqn:Hpath; [|done].
    simpl in H. rewrite Hrepos in H.
    destruct (initRepos (Repos c1)) as [repos|] eqn:Hinit; [|done].
    injection H as <-.
    exists r, c1, path, repos. repeat split; try done.
    intros Hrel. by rewrite Habs in Hrel.
Qed.

(** C7. On a Unix system, when [LoadFromFile] returns no error: a
    decoded database path that is absolute is kept as it is. A relative
    one becomes what [filepath.Abs] makes of it joined to the directory
    of the configuration file, which is a path in cleaned form; when the
    configuration file is named by an absolute path it is the cleaned
    form of directory, separator and database path, an absolute path
    that owes nothing to the working directory, and when the working
    directory is absolute it is absolute whatever the file name. The
    file [/a/b/config.json] with the database path [data] gives
    [/a/b/data], and the database path [/abs/data] stays. *)
Theorem LoadFromFile_DbPath (F : Type) (open : string -> result F)
    (decode : F -> Config -> Config * option error)
    (getwd : result string) (filename : string) (c c' : Config) :
  LoadFromFile (unixSys F open decode getwd) filename c
    = Return (c', None) ->
  exists (r : F) (c1 : Config),
    open filename = Ok r
    /\ decode r c = (c1, None)
    /\ (filepath.IsAbs (DbPath c1) = true -> DbPath c' = DbPath c1)
    /\ (filepath.IsAbs (DbPath c1) = false ->
        filepath.Abs getwd
          (filepath.Join (filepath.Dir filename) (DbPath c1))
        = Ok (DbPath c')
        /\ filepath.Join (filepath.Dir filename) (DbPath c1)
           = filepath.Clean (filepath.Dir filename +:+ "/" +:+ DbPath c1)
        /\ filepath.Clean (DbPath c') = DbPath c'
        /\ (filepath.IsAbs filename = true ->
            DbPath c'
            = filepath.Clean (filepath.Dir filename +:+ "/" +:+ DbPath c1)
            /\ filepath.IsAbs (DbPath c') = true)
        /\ (forall wd : string,
              getwd = Ok wd -> filepath.IsAbs wd = true ->
              filepath.IsAbs (DbPath c') = true))
    /\ (filename = "/a/b/config.json" -> DbPath c1 = "data" ->
        DbPath c' = "/a/b/data")
    /\ (DbPath c1 = "/abs/data" -> DbPath c' = "/abs/data").
Proof.
  intros H.
  destruct (LoadFromFile_success_inv _ _ _ _ H)
    as (r & c1 & path & repos & Hopen & Hdec & Habs & Hrel & _ & ->).
  simpl in *. exists r, c1. rewrite initConfig_DbPath. simpl.
  split; [done|]. split; [done|]. split; [done|].
  assert (filepath.Join (filepath.Dir filename) (DbPath c1)
          = filepath.Clean (filepath.Dir filename +:+ "/" +:+ DbPath c1))
    as Hjoin by apply Join_not_empty, Dir_not_empty.
  assert (filepath.IsAbs (DbPath c1) = false ->
          filepath.IsAbs filename = true ->
          path = filepath.Clean (filepath.Dir filename +:+ "/" +:+ DbPath c1)
          /\ filepath.IsAbs path = true) as Hunder.
  { intros Hdb Hfile. specialize (Hrel Hdb).
    assert (filepath.IsAbs
              (filepath.Clean (filepath.Dir filename +:+ "/" +:+ DbPath c1))
            = true) as Hj by by apply IsAbs_Clean, IsAbs_app, IsAbs_Dir.
    rewrite Hjoin in Hrel. unfold filepath.Abs in Hrel. rewrite Hj in Hrel.
    injection Hrel as <-. rewrite Clean_idempotent. by split. }
  split; [|split].
  - intros Hdb. pose proof (Hrel Hdb) as Hpath.
    split; [done|]. split; [done|]. split.
    { eapply Abs_cleaned; [|exact Hpath]. rewrite Hjoin.
      apply Clean_not_empty. }
    split; [by apply Hunder|].
    intros wd -> Hwd. unfold filepath.Abs in Hpath.
    destruct (filepath.IsAbs (filepath.Join _ _)) eqn:Hj.
    + injection Hpath as <-. by apply IsAbs_Clean.
    + simpl in Hpath. injection Hpath as <-. by apply IsAbs_Join.
  - intros -> Hdata.
    destruct (Hunder ltac:(by rewrite Hdata) eq_refl) as [-> _].
    by rewrite Hdata.
  - intros Hdata. rewrite <- Hdata. apply Habs. by rewrite Hdata.
Qed.

(** C9. When [LoadFromFile] returns no error, the title is [Hound] if
    the decoded one was empty, the number of concurrent indexers is 2 if
    the decoded one was zero, the health-check URI is [/healthz] if the
    decoded one was empty, and each is the decoded value otherwise. *)
Theorem LoadFromFile_config_defaults (sys : Sys) (filename : string)
    (c c' : Config) :
  LoadFromFile sys filename c = Return (c', None) ->
  exists (r : File sys) (c1 : Config),
    os_Open sys filename = Ok r
    /\ json_Decode sys r c = (c1, None)
    /\ Title c' = (if decide (Title c1 = "") then "Hound" else Title c1)
    /\ MaxConcurrentIndexers c'
         = (if decide (MaxConcurrentIndexers c1 = 0) then 2
            else MaxConcurrentIndexers c1)
    /\ HealthCheckURI c'
         = (if decide (HealthCheckURI c1 = "") then "/healthz"
            else HealthCheckURI c1).
Proof.
  intros H.
  destruct (LoadFromFile_success_inv _ _ _ _ H)
    as (r & c1 & path & repos & Hopen & Hdec & _ & _ & _ & ->).
  exists r, c1. split; [done|]. split; [done|].
  unfold initConfig. destruct c1 as [d t rs n h]; simpl.
  by initRepo_cases.
Qed.

(** Witness of C7: the file [/a/b/config.json] with the dbpath [data],
    loaded where the working directory is [/srv]. *)
Lemma LoadFromFile_DbPath_witness :
  LoadFromFile sampleSys "/a/b/config.json" plainConfig
    = Return (loadedSample, None)
  /\ DbPath (json_Decode sampleSys tt plainConfig).1 = "data"
  /\ DbPath loadedSample = "/a/b/data"
  /\ filepath.IsAbs (DbPath loadedSample) = true
  /\ filepath.Clean (DbPath loadedSample) = DbPath loadedSample.
Proof.
  assert (LoadFromFile sampleSys "/a/b/config.json" plainConfig
          = Return (loadedSample, None)) as H by (vm_compute; reflexivity).
  split; [exact H|]. split; [reflexivity|].
  destruct (LoadFromFile_DbPath unit _ _ (Ok "/srv") "/a/b/config.json"
              plainConfig loadedSample H)
    as (r & c1 & _ & Hdec & _ & Hrel & Hexample & _).
  injection Hdec as <-.
  destruct (Hrel eq_refl) as (_ & _ & Hclean & Hunder & _).
  split; [exact (Hexample eq_refl eq_refl)|].
  split; [exact (proj2 (Hunder eq_refl)) | exact Hclean].
Defined.

(** Witness of C9: the same file, which sets none of the three fields. *)
Lemma LoadFromFile_config_defaults_witness :
  LoadFromFile sampleSys "/a/b/config.json" plainConfig
    = Return (loadedSample, None)
  /\ Title loadedSample = "Hound"
  /\ MaxConcurrentIndexers loadedSample = 2
  /\ HealthCheckURI loadedSample = "/healthz".
Proof.
  assert (LoadFromFile sampleSys "/a/b/config.json" plainConfig
          = Return (loadedSample, None)) as H by (vm_compute; reflexivity).
  split; [exact H|].
  destruct (LoadFromFile_config_defaults sampleSys "/a/b/config.json"
              plainConfig loadedSample H) as (r & c1 & _ & Hdec & Hdefaults).
  injection Hdec as <-. exact Hdefaults.
Defined.

(** On the sample systems: the relative dbpath [data] of
    [/a/b/config.json] becomes [/a/b/data], the absolute dbpath
    [/abs/data] stays, and supplied values of the three defaulted fields
    stay. *)
Example LoadFromFile_samples :
  DbPath loadedSample = "/a/b/data"
  /\ LoadFromFile sampleSysAbsolute "/a/b/config.json" plainConfig
       = Return (loadedSampleAbsolute, None)
  /\ DbPath loadedSampleAbsolute = "/abs/data"
  /\ Title loadedSampleAbsolute = "Code"
  /\ MaxConcurrentIndexers loadedSampleAbsolute = 8
  /\ HealthCheckURI loadedSampleAbsolute = "/ping".
Proof. repeat split; vm_compute; reflexivity. Qed.

(** A nil [*Repo] in the map makes [LoadFromFile] panic. *)
Example LoadFromFile_nil_repo :
  LoadFromFile
    (unixSys unit (fun _ => Ok tt)
       (fun _ c => (setRepos (Some {[ "r" := None ]}) c, None)) (Ok "/srv"))
    "/a/b/config.json" plainConfig
  = Panic nilDereference.
Proof. vm_compute. reflexivity. Qed.

(** * Further properties *)

(** ** The secret envelope *)

(** X1. Each decoding replaces what the envelope held: after two
    successive calls of [UnmarshalJSON] on a target, with any bytes,
    the target holds exactly the bytes of the second call, [VcsConfig]
    returns them, and a further call with nil bytes returns an error
    and leaves them in place. *)
Theorem UnmarshalJSON_last_write_wins (old : SecretMessage)
    (b1 b2 : list byte) (r : Repo) :
  exists s1 s2 : SecretMessage,
    UnmarshalJSON (Some old) (Some b1) = Return (Some s1, None)
    /\ UnmarshalJSON (Some s1) (Some b2) = Return (Some s2, None)
    /\ sliceBytes s2 = b2
    /\ sliceBytes (VcsConfig (setVcsConfigMessage (Some s2) r)) = b2
    /\ exists e : error,
         UnmarshalJSON (Some s2) None = Return (Some s2, Some e).
Proof.
  exists (append (reslice00 old) b1),
         (append (reslice00 (append (reslice00 old) b1)) b2).
  repeat split; try (by destruct old, b1, b2).
  by eexists.
Qed.

(** ** Repository and configuration defaults *)

Lemma normalizedRepo_initRepo (r : Repo) : normalizedRepo (initRepo r).
Proof.
  unfold normalizedRepo, initRepo.
  destruct r as [u ms v sec pat x poll push]; simpl.
  destruct (decide (ms = 0)) as [->|Hms]; simpl;
    destruct (decide (v = "")) as [->|Hv]; simpl;
    (destruct pat as [[b a]|]; simpl;
     [ destruct (decide (b = "")) as [->|Hb]; simpl;
       destruct (decide (a = "")) as [->|Ha]; simpl
     | destruct (Contains u "visualstudio.com"); simpl ]);
    (split; [done|]; split; [done|]; eexists; split; [reflexivity|]; done).
Qed.

Lemma initRepo_of_normalizedRepo (r : Repo) :
  normalizedRepo r -> initRepo r = r.
Proof.
  intros (Hms & Hvcs & p & Hp & Hb & Ha). unfold initRepo.
  destruct r as [u ms v sec pat x poll push]; simpl in *; subst pat.
  destruct p as [b a]; simpl in *. by initRepo_cases.
Qed.

(** X2. [initRepo] leaves a repository with nothing left to default,
    and the repositories it does not change are exactly those: a
    repository that sets all three fields goes through untouched. *)
Theorem initRepo_normalizes (r : Repo) :
  normalizedRepo (initRepo r) /\ (initRepo r = r <-> normalizedRepo r).
Proof.
  split; [apply normalizedRepo_initRepo|]. split.
  - intros <-. apply normalizedRepo_initRepo.
  - apply initRepo_of_normalizedRepo.
Qed.

(** X3. With a url-pattern present, [initRepo] fills each template on
    its own: an empty one becomes the generic default and a supplied one
    stays. The URL plays no part, so an empty url-pattern object on an
    Azure DevOps URL gets the generic pair. *)
Theorem initRepo_present_url_pattern (r : Repo) (p : URLPattern) :
  URLPatternPtr r = Some p ->
  URLPatternPtr (initRepo r)
    = Some (mkURLPattern
              (if decide (BaseURL p = "")
               then "{url}/blob/master/{path}{anchor}" else BaseURL p)
              (if decide (Anchor p = "") then "#L{line}" else Anchor p)).
Proof.
  intros Hp. unfold initRepo.
  destruct r as [u ms v sec pat x poll push]; simpl in *; subst pat.
  destruct p as [b a]; simpl. by initRepo_cases.
Qed.

(** Witness of X3: the empty url-pattern on an Azure DevOps URL. *)
Lemma initRepo_present_url_pattern_witness :
  URLPatternPtr azureRepoEmptyPattern = Some (mkURLPattern "" "")
  /\ Contains (URL azureRepoEmptyPattern) "visualstudio.com" = true
  /\ URLPatternPtr (initRepo azureRepoEmptyPattern)
       = Some (mkURLPattern "{url}/blob/master/{path}{anchor}" "#L{line}").
Proof.
  split; [reflexivity|]. split; [reflexivity|].
  exact (initRepo_present_url_pattern azureRepoEmptyPattern
           (mkURLPattern "" "") eq_refl).
Defined.

Lemma initConfig_normalized (c : Config) :
  MaxConcurrentIndexers (initConfig c) <> 0
  /\ HealthCheckURI (initConfig c) <> "".
Proof.
  unfold initConfig. destruct c as [d t rs n h]; simpl.
  split; by initRepo_cases.
Qed.

Lemma initConfig_Repos (c : Config) : Repos (initConfig c) = Repos c.
Proof. unfold initConfig. by initRepo_cases. Qed.

(** X4. [initConfig] leaves a non-zero number of indexers and a
    non-empty health-check URI, is idempotent, and touches neither the
    database path, nor the title, nor the repositories. *)
Theorem initConfig_normalizes (c : Config) :
  MaxConcurrentIndexers (initConfig c) <> 0
  /\ HealthCheckURI (initConfig c) <> ""
  /\ initConfig (initConfig c) = initConfig c
  /\ DbPath (initConfig c) = DbPath c
  /\ Title (initConfig c) = Title c
  /\ Repos (initConfig c) = Repos c.
Proof.
  destruct (initConfig_normalized c) as [Hn Hh].
  split; [done|]. split; [done|].
  split; [|by rewrite initConfig_DbPath, initConfig_Title, initConfig_Repos].
  unfold initConfig. destruct c as [d t rs n h]; simpl.
  by initRepo_cases.
Qed.

(** ** The loader *)

Lemma initRepos_Return_inv (rs rs' : option (gmap string (option Repo))) :
  initRepos rs = Return rs' ->
  rs' = (fun m : gmap string (option Repo) =>
           (fun p : option Repo => initRepo <$> p) <$> m) <$> rs
  /\ forall (m : gmap string (option Repo)) (name : string) (p : option Repo),
       rs = Some m -> m !! name = Some p -> is_Some p.
Proof.
  destruct rs as [m|]; simpl.
  - case_bool_decide as Hall; [|done]. intros [= <-]. split; [done|].
    intros m' name p [= <-] Hp. exact (Hall name p Hp).
  - intros [= <-]. split; [done|]. intros m name p [=].
Qed.

Lemma initRepos_Panic (m : gmap string (option Repo)) (name : string) :
  m !! name = Some None -> initRepos (Some m) = Panic nilDereference.
Proof.
  intros Hnil. simpl. case_bool_decide as Hall; [|done].
  destruct (Hall name None Hnil) as [r [=]].
Qed.

Lemma initRepo_untouched (r : Repo) :
  URL (initRepo r) = URL r
  /\ VcsConfigMessage (initRepo r) = VcsConfigMessage r
  /\ EnablePollUpdates (initRepo r) = EnablePollUpdates r
  /\ EnablePushUpdates (initRepo r) = EnablePushUpdates r.
Proof.
  unfold initRepo. destruct r as [u ms v sec pat x poll push]; simpl.
  repeat split; by initRepo_cases.
Qed.

(** The repositories of a loaded configuration are those decoded, each
    gone through [initRepo]. *)
Lemma LoadFromFile_repoNamed (sys : Sys) (filename : string) (c c' : Config) :
  LoadFromFile sys filename c = Return (c', None) ->
  exists (r : File sys) (c1 : Config),
    os_Open sys filename = Ok r
    /\ json_Decode sys r c = (c1, None)
    /\ Repos c' = (fun m : gmap string (option Repo) =>
                     (fun p : option Repo => initRepo <$> p) <$> m)
                  <$> Repos c1
    /\ forall (name : string) (p : option Repo),
         repoNamed c1 name = Some p -> is_Some p.
Proof.
  intros H.
  destruct (LoadFromFile_success_inv _ _ _ _ H)
    as (r & c1 & path & repos & Hopen & Hdec & _ & _ & Hinit & ->).
  destruct (initRepos_Return_inv _ _ Hinit) as [-> Hsome].
  exists r, c1. rewrite initConfig_Repos. simpl.
  repeat split; try done.
  intros name p. unfold repoNamed.
  destruct (Repos c1) as [m|] eqn:Hm; [|done]. eauto.
Qed.

(** X5. A configuration that [LoadFromFile] returned without error has
    a title, a non-zero number of indexers and a health-check URI, and
    every name of its repository map leads to a repository (never to a
    nil pointer) with nothing left to default. *)
Theorem LoadFromFile_loaded_invariant (sys : Sys) (filename : string)
    (c c' : Config) :
  LoadFromFile sys filename c = Return (c', None) ->
  Title c' <> ""
  /\ MaxConcurrentIndexers c' <> 0
  /\ HealthCheckURI c' <> ""
  /\ forall (name : string) (p : option Repo),
       repoNamed c' name = Some p ->
       exists r : Repo, p = Some r /\ normalizedRepo r.
Proof.
  intros H.
  destruct (LoadFromFile_repoNamed _ _ _ _ H)
    as (r & c1 & _ & _ & Hrepos & Hsome).
  destruct (LoadFromFile_success_inv _ _ _ _ H)
    as (_ & d & path & repos & _ & _ & _ & _ & _ & Hc').
  split.
  { rewrite Hc', initConfig_Title. simpl. by case_decide. }
  split; [rewrite Hc'; apply initConfig_normalized|].
  split; [rewrite Hc'; apply initConfig_normalized|].
  intros name p. unfold repoNamed in *. rewrite Hrepos.
  destruct (Repos c1) as [m|]; [|done]. simpl.
  rewrite lookup_fmap. destruct (m !! name) as [q|] eqn:Hq; [|done].
  intros [= <-]. destruct (Hsome name q Hq) as [r0 ->].
  exists (initRepo r0). split; [done | apply normalizedRepo_initRepo].
Qed.

(** Witness of X5: the configuration loaded from [/a/b/config.json]. *)
Lemma LoadFromFile_loaded_invariant_witness :
  LoadFromFile sampleSys "/a/b/config.json" plainConfig
    = Return (loadedSample, None)
  /\ Title loadedSample <> ""
  /\ MaxConcurrentIndexers loadedSample <> 0
  /\ HealthCheckURI loadedSample <> ""
  /\ forall (name : string) (p : option Repo),
       repoNamed loadedSample name = Some p ->
       exists r : Repo, p = Some r /\ normalizedRepo r.
Proof.
  assert (LoadFromFile sampleSys "/a/b/config.json" plainConfig
          = Return (loadedSample, None)) as H by (vm_compute; reflexivity).
  split; [exact H|].
  exact (LoadFromFile_loaded_invariant sampleSys "/a/b/config.json"
           plainConfig loadedSample H).
Defined.

(** X6. Loading keeps the names of the decoded repository map, and
    under each name the repository keeps its URL, its secret payload
    and the effective value of its two update flags. *)
Theorem LoadFromFile_keeps_repositories (sys : Sys) (filename : string)
    (c c' : Config) :
  LoadFromFile sys filename c = Return (c', None) ->
  exists (r : File sys) (c1 : Config),
    os_Open sys filename = Ok r
    /\ json_Decode sys r c = (c1, None)
    /\ (forall name : string,
          repoNamed c' name
          = (fun p : option Repo => initRepo <$> p) <$> repoNamed c1 name)
    /\ (forall (name : string) (p : option Repo),
          repoNamed c1 name = Some p ->
          exists r0 r' : Repo,
            p = Some r0
            /\ repoNamed c' name = Some (Some r')
            /\ URL r' = URL r0
            /\ VcsConfig r' = VcsConfig r0
            /\ PollUpdatesEnabled r' = PollUpdatesEnabled r0
            /\ PushUpdatesEnabled r' = PushUpdatesEnabled r0).
Proof.
  intros H.
  destruct (LoadFromFile_repoNamed _ _ _ _ H)
    as (r & c1 & Hopen & Hdec & Hrepos & Hsome).
  exists r, c1. split; [done|]. split; [done|].
  assert (forall name : string,
            repoNamed c' name
            = (fun p : option Repo => initRepo <$> p) <$> repoNamed c1 name)
    as Hnamed.
  { intros name. unfold repoNamed. rewrite Hrepos.
    destruct (Repos c1) as [m|]; [|done]. simpl. by rewrite lookup_fmap. }
  split; [exact Hnamed|].
  intros name p Hp. destruct (Hsome name p Hp) as [r0 ->].
  exists r0, (initRepo r0). rewrite Hnamed, Hp.
  destruct (initRepo_untouched r0) as (Hu & Hs & Hpoll & Hpush).
  unfold VcsConfig, PollUpdatesEnabled, PushUpdatesEnabled.
  rewrite Hu, Hs, Hpoll, Hpush. done.
Qed.

(** Witness of X6: the configuration loaded from [/a/b/config.json]. *)
Lemma LoadFromFile_keeps_repositories_witness :
  LoadFromFile sampleSys "/a/b/config.json" plainConfig
    = Return (loadedSample, None)
  /\ exists r' : Repo,
       repoNamed loadedSample "a" = Some (Some r')
       /\ stringOfBytes (VcsConfig r') = payloadX1.
Proof.
  assert (LoadFromFile sampleSys "/a/b/config.json" plainConfig
          = Return (loadedSample, None)) as H by (vm_compute; reflexivity).
  split; [exact H|].
  destruct (LoadFromFile_keeps_repositories sampleSys "/a/b/config.json"
              plainConfig loadedSample H)
    as (r & c1 & _ & Hdec & _ & Hkeep).
  injection Hdec as <-.
  destruct (Hkeep "a" (Some (secretRepo payloadX1)) eq_refl)
    as (r0 & r' & Hr0 & Hr' & _ & Hsecret & _).
  injection Hr0 as <-. exists r'. split; [exact Hr'|].
  rewrite Hsecret. reflexivity.
Defined.

(** X7. When the file opens and decodes, the database path resolves,
    and the decoded repository map holds a nil pointer under some name,
    [LoadFromFile] panics on the nil dereference in [initRepo]. *)
Theorem LoadFromFile_nil_repo_panics (sys : Sys) (filename : string)
    (c c1 : Config) (r : File sys) (name : string) :
  os_Open sys filename = Ok r ->
  json_Decode sys r c = (c1, None) ->
  (filepath_IsAbs sys (DbPath c1) = true
   \/ exists path : string,
        filepath_Abs sys
          (filepath_Join sys (filepath_Dir sys filename) (DbPath c1))
        = Ok path) ->
  repoNamed c1 name = Some None ->
  LoadFromFile sys filename c = Panic nilDereference.
Proof.
  intros Hopen Hdec Hpath Hnil. unfold LoadFromFile.
  rewrite Hopen, Hdec.
  set (c2 := if decide (Title c1 = "") then setTitle defaultTitle c1 else c1).
  assert (DbPath c2 = DbPath c1) as Hdb by (subst c2; by case_decide).
  assert (Repos c2 = Repos c1) as Hrepos by (subst c2; by case_decide).
  unfold repoNamed in Hnil.
  destruct (Repos c1) as [m|] eqn:Hm; [|done].
  rewrite Hdb.
  destruct (filepath_IsAbs sys (DbPath c1)) eqn:Habs; simpl.
  - by rewrite Hrepos, (initRepos_Panic m name Hnil).
  - destruct Hpath as [[=]|[path ->]]. simpl.
    by rewrite Hrepos, (initRepos_Panic m name Hnil).
Qed.

(** Witness of X7: a file that gives a nil repository under [r]. *)
Lemma LoadFromFile_nil_repo_panics_witness :
  os_Open nilRepoSys "/a/b/config.json" = Ok tt
  /\ repoNamed (json_Decode nilRepoSys tt plainConfig).1 "r" = Some None
  /\ LoadFromFile nilRepoSys "/a/b/config.json" plainConfig
     = Panic nilDereference.
Proof.
  split; [reflexivity|]. split; [reflexivity|].
  apply (LoadFromFile_nil_repo_panics nilRepoSys "/a/b/config.json"
           plainConfig (setRepos (Some {[ "r" := None ]}) plainConfig)
           tt "r").
  - reflexivity.
  - reflexivity.
  - left. reflexivity.
  - reflexivity.
Defined.

(** X8. An error of [LoadFromFile] is the one [os.Open], the decoder
    or [filepath.Abs] returned. After a failed open the configuration is
    as it was; after a failed decoding it is as the decoder left it;
    after a failed path resolution it is as decoded except for a
    defaulted title: no repository has gone through [initRepo] and
    [initConfig] has not run. *)
Theorem LoadFromFile_error_inv (sys : Sys) (filename : string)
    (c c' : Config) (e : error) :
  LoadFromFile sys filename c = Return (c', Some e) ->
  (os_Open sys filename = Err e /\ c' = c)
  \/ (exists r : File sys,
        os_Open sys filename = Ok r /\ json_Decode sys r c = (c', Some e))
  \/ (exists (r : File sys) (c1 : Config),
        os_Open sys filename = Ok r
        /\ json_Decode sys r c = (c1, None)
        /\ filepath_IsAbs sys (DbPath c1) = false
        /\ filepath_Abs sys
             (filepath_Join sys (filepath_Dir sys filename) (DbPath c1))
           = Err e
        /\ c' = (if decide (Title c1 = "")
                 then setTitle defaultTitle c1 else c1)
        /\ DbPath c' = DbPath c1
        /\ Repos c' = Repos c1
        /\ MaxConcurrentIndexers c' = MaxConcurrentIndexers c1
        /\ HealthCheckURI c' = HealthCheckURI c1).
Proof.
  unfold LoadFromFile. intros H.
  destruct (os_Open sys filename) as [r|e0] eqn:Hopen.
  2:{ left. by injection H as <- <-. }
  right.
  destruct (json_Decode sys r c) as [c1 [e1|]] eqn:Hdec.
  { left. exists r. by injection H as <- <-. }
  right. exists r, c1.
  set (c2 := if decide (Title c1 = "") then setTitle defaultTitle c1 else c1)
    in *.
  assert (DbPath c2 = DbPath c1) as Hdb by (subst c2; by case_decide).
  rewrite Hdb in H.
  destruct (filepath_IsAbs sys (DbPath c1)) eqn:Habs; simpl in H.
  { by destruct (initRepos (Repos c2)). }
  destruct (filepath_Abs sys _) as [path|e2] eqn:Hpath; simpl in H.
  { by destruct (initRepos (Repos c2)). }
  injection H as <- <-.
  repeat split; try done; subst c2; by case_decide.
Qed.

(** Witness of X8: the working directory is gone and the file is named
    by a relative path. *)
Lemma LoadFromFile_error_inv_witness :
  LoadFromFile lostSys "config.json" plainConfig
    = Return (lostSample,
              Some (errors_New "getwd: no such file or directory"))
  /\ Title lostSample = "Hound"
  /\ DbPath lostSample = "data"
  /\ MaxConcurrentIndexers lostSample = 0.
Proof.
  assert (LoadFromFile lostSys "config.json" plainConfig
          = Return (lostSample,
                    Some (errors_New "getwd: no such file or directory")))
    as H by (vm_compute; reflexivity).
  split; [exact H|].
  destruct (LoadFromFile_error_inv lostSys "config.json" plainConfig
              lostSample _ H)
    as [[Hopen _]|[(r & _ & Hdec)|(r & c1 & _ & Hdec & _ & _ & _ & Hrest)]].
  - discriminate Hopen.
  - discriminate Hdec.
  - repeat split; reflexivity.
Defined.

(** X9. On a Unix system whose working directory is an absolute path,
    the database path of a configuration that [LoadFromFile] returned
    without error is absolute. *)
Theorem LoadFromFile_unix_DbPath_absolute (F : Type)
    (open : string -> result F)
    (decode : F -> Config -> Config * option error)
    (wd filename : string) (c c' : Config) :
  filepath.IsAbs wd = true ->
  LoadFromFile (unixSys F open decode (Ok wd)) filename c
    = Return (c', None) ->
  filepath.IsAbs (DbPath c') = true.
Proof.
  intros Hwd H.
  destruct (LoadFromFile_success_inv _ _ _ _ H)
    as (r & c1 & path & repos & _ & _ & Habs & Hrel & _ & ->).
  rewrite initConfig_DbPath. simpl in *.
  destruct (filepath.IsAbs (DbPath c1)) eqn:E.
  - by rewrite (Habs eq_refl).
  - specialize (Hrel eq_refl). unfold filepath.Abs in Hrel.
    destruct (filepath.IsAbs (filepath.Join _ _)) eqn:E2.
    + injection Hrel as <-. by apply IsAbs_Clean.
    + simpl in Hrel. injection Hrel as <-. by apply IsAbs_Join.
Qed.

(** Witness of X9: the relative dbpath [data] of [/a/b/config.json]. *)
Lemma LoadFromFile_unix_DbPath_absolute_witness :
  filepath.IsAbs "/srv" = true
  /\ LoadFromFile sampleSys "/a/b/config.json" plainConfig
     = Return (loadedSample, None)
  /\ filepath.IsAbs (DbPath loadedSample) = true.
Proof.
  assert (LoadFromFile sampleSys "/a/b/config.json" plainConfig
          = Return (loadedSample, None)) as H by (vm_compute; reflexivity).
  split; [reflexivity|]. split; [exact H|].
  exact (LoadFromFile_unix_DbPath_absolute unit _ _ "/srv"
           "/a/b/config.json" plainConfig loadedSample eq_refl H).
Defined.

(** ** The JSON projection *)

(** X10. Every name of the repository map is in the projection, as a
    quoted key followed by a colon and the encoding of what the name
    leads to, which is [null] for a nil pointer. *)
Theorem ToJSONString_members (c : Config) (name : string) (p : option Repo) :
  repoNamed c name = Some p ->
  exists v : string,
    json.repoPtrEncoder p = Ok v
    /\ (p = None -> v = "null")
    /\ Contains (ToJSONString c).1 (json.appendString name +:+ ":" +:+ v)
       = true.
Proof.
  unfold repoNamed. intros Hp.
  destruct (Repos c) as [m|] eqn:Hm; [|done].
  destruct (mapEncoder_Ok (Repos c)) as [s Hs].
  rewrite (ToJSONString_mapEncoder _ _ Hs). rewrite Hm in Hs. simpl in Hs.
  destruct (json.membersEncoder m (json.sortedKeys m)) as [members|] eqn:Hmem;
    [|done].
  simpl in Hs. injection Hs as <-.
  destruct (membersEncoder_member m _ members name Hmem
              (elem_of_sortedKeys m name _ Hp)) as (x & Hx & Hsub).
  unfold json.memberEncoder in Hx. rewrite Hp in Hx. simpl in Hx.
  destruct (json.repoPtrEncoder p) as [v|] eqn:Hv; [|done].
  simpl in Hx. injection Hx as <-.
  exists v. split; [done|]. split.
  - intros ->. by injection Hv as <-.
  - simpl. apply Contains_spec.
    by apply substring_of_app_l, substring_of_app_r.
Qed.

(** Witness of X10: the repository [r] of [plainConfig]. *)
Lemma ToJSONString_members_witness :
  repoNamed plainConfig "r" = Some (Some azureRepo)
  /\ exists v : string,
       json.repoPtrEncoder (Some azureRepo) = Ok v
       /\ Contains (ToJSONString plainConfig).1
            (json.appendString "r" +:+ ":" +:+ v) = true.
Proof.
  split; [reflexivity|].
  destruct (ToJSONString_members plainConfig "r" (Some azureRepo) eq_refl)
    as (v & Hv & _ & Hin).
  exists v. split; [exact Hv | exact Hin].
Defined.

(** [initRepo] does not read the secret payload. *)
Lemma eraseSecret_initRepo (r : Repo) :
  eraseSecret (initRepo r) = initRepo (eraseSecret r).
Proof.
  unfold eraseSecret, initRepo.
  destruct r as [u ms v sec pat x poll push]; simpl.
  destruct (decide (ms = 0)); simpl; destruct (decide (v = "")); simpl;
    (destruct pat as [[b a]|]; simpl;
     [ destruct (decide (b = "")); simpl; destruct (decide (a = "")); simpl
     | destruct (Contains u "visualstudio.com"); simpl ]);
    reflexivity.
Qed.

Lemma eraseSecrets_initRepo (rs : option (gmap string (option Repo))) :
  eraseSecrets ((fun m : gmap string (option Repo) =>
                   (fun p : option Repo => initRepo <$> p) <$> m) <$> rs)
  = (fun m : gmap string (option Repo) =>
       (fun p : option Repo => initRepo <$> p) <$> m) <$> eraseSecrets rs.
Proof.
  destruct rs as [m|]; [|done]. simpl. f_equal.
  rewrite <- !map_fmap_compose. apply map_fmap_ext.
  intros name [r|] _; simpl; [|done]. by rewrite eraseSecret_initRepo.
Qed.

(** X11. The projection of a loaded configuration does not depend on
    the secrets of the file: when the repository maps two loads decode
    agree once the payload bytes are erased, the configurations they
    return have the same projection. *)
Theorem LoadFromFile_then_ToJSONString (sys1 sys2 : Sys)
    (f1 f2 : string) (c1 c2 c1' c2' d1 d2 : Config)
    (r1 : File sys1) (r2 : File sys2) :
  os_Open sys1 f1 = Ok r1 -> json_Decode sys1 r1 c1 = (d1, None) ->
  os_Open sys2 f2 = Ok r2 -> json_Decode sys2 r2 c2 = (d2, None) ->
  eraseSecrets (Repos d1) = eraseSecrets (Repos d2) ->
  LoadFromFile sys1 f1 c1 = Return (c1', None) ->
  LoadFromFile sys2 f2 c2 = Return (c2', None) ->
  ToJSONString c1' = ToJSONString c2'.
Proof.
  intros Hopen1 Hdec1 Hopen2 Hdec2 Herase H1 H2.
  destruct (LoadFromFile_repoNamed _ _ _ _ H1)
    as (r1' & e1 & Ho1 & Hd1 & Hrepos1 & _).
  destruct (LoadFromFile_repoNamed _ _ _ _ H2)
    as (r2' & e2 & Ho2 & Hd2 & Hrepos2 & _).
  rewrite Hopen1 in Ho1. injection Ho1 as <-.
  rewrite Hopen2 in Ho2. injection Ho2 as <-.
  rewrite Hdec1 in Hd1. injection Hd1 as <-.
  rewrite Hdec2 in Hd2. injection Hd2 as <-.
  destruct (mapEncoder_Ok (Repos c1')) as [s Hs].
  assert (json.mapEncoder (Repos c2') = Ok s) as Hs2.
  { rewrite <- mapEncoder_eraseSecrets, Hrepos2, eraseSecrets_initRepo,
      <- Herase, <- eraseSecrets_initRepo, <- Hrepos1,
      mapEncoder_eraseSecrets.
    exact Hs. }
  by rewrite (ToJSONString_mapEncoder _ _ Hs),
       (ToJSONString_mapEncoder _ _ Hs2).
Qed.

(** Witness of X11: two files with different titles and secrets, loaded
    in different places. *)
Lemma LoadFromFile_then_ToJSONString_witness :
  LoadFromFile sampleSys "/a/b/config.json" plainConfig
    = Return (loadedSample, None)
  /\ LoadFromFile sampleSysOther "hound/config.json" leakyConfig
     = Return (loadedSampleOther, None)
  /\ VcsConfig (secretRepo payloadX1) <> VcsConfig (secretRepo "[1,2,3]")
  /\ ToJSONString loadedSample = ToJSONString loadedSampleOther.
Proof.
  assert (LoadFromFile sampleSys "/a/b/config.json" plainConfig
          = Return (loadedSample, None)) as H1 by (vm_compute; reflexivity).
  assert (LoadFromFile sampleSysOther "hound/config.json" leakyConfig
          = Return (loadedSampleOther, None)) as H2
    by (vm_compute; reflexivity).
  split; [exact H1|]. split; [exact H2|]. split; [discriminate|].
  exact (LoadFromFile_then_ToJSONString sampleSys sampleSysOther
           "/a/b/config.json" "hound/config.json" plainConfig leakyConfig
           loadedSample loadedSampleOther
           (configWithSecret "" payloadX1) (configWithSecret "Code" "[1,2,3]")
           tt tt eq_refl eq_refl eq_refl eq_refl eq_refl H1 H2).
Defined.

(** ** When the loader succeeds *)

Lemma initRepos_Return (rs : option (gmap string (option Repo))) :
  (forall (m : gmap string (option Repo)) (name : string) (p : option Repo),
     rs = Some m -> m !! name = Some p -> is_Some p) ->
  exists rs' : option (gmap string (option Repo)), initRepos rs = Return rs'.
Proof.
  intros Hsome. destruct rs as [m|]; simpl; [|by eexists].
  case_bool_decide as Hall; [by eexists|].
  destruct Hall. intros name p Hp. by apply (Hsome m name p).
Qed.

(** X12. [LoadFromFile] returns without error as soon as the file
    opens, its text decodes, the database path is absolute or resolves,
    and no name of the decoded repository map leads to a nil pointer. *)
Theorem LoadFromFile_succeeds (sys : Sys) (filename : string)
    (c c1 : Config) (r : File sys) :
  os_Open sys filename = Ok r ->
  json_Decode sys r c = (c1, None) ->
  (filepath_IsAbs sys (DbPath c1) = true
   \/ exists path : string,
        filepath_Abs sys
          (filepath_Join sys (filepath_Dir sys filename) (DbPath c1))
        = Ok path) ->
  (forall (name : string) (p : option Repo),
     repoNamed c1 name = Some p -> is_Some p) ->
  exists c' : Config, LoadFromFile sys filename c = Return (c', None).
Proof.
  intros Hopen Hdec Hpath Hsome. unfold LoadFromFile.
  rewrite Hopen, Hdec.
  set (c2 := if decide (Title c1 = "") then setTitle defaultTitle c1 else c1).
  assert (DbPath c2 = DbPath c1) as Hdb by (subst c2; by case_decide).
  assert (Repos c2 = Repos c1) as Hrepos by (subst c2; by case_decide).
  destruct (initRepos_Return (Repos c1)) as [rs' Hrs'].
  { intros m name p Hm Hp. apply (Hsome name). unfold repoNamed.
    by rewrite Hm. }
  rewrite Hdb.
  destruct (filepath_IsAbs sys (DbPath c1)) eqn:Habs; simpl.
  - rewrite Hrepos, Hrs'. by eexists.
  - destruct Hpath as [[=]|[path ->]]. simpl.
    rewrite Hrepos, Hrs'. by eexists.
Qed.

(** Witness of X12: the file [/a/b/config.json] of [sampleSys]. *)
Lemma LoadFromFile_succeeds_witness :
  os_Open sampleSys "/a/b/config.json" = Ok tt
  /\ json_Decode sampleSys tt plainConfig
     = (configWithSecret "" payloadX1, None)
  /\ exists c' : Config,
       LoadFromFile sampleSys "/a/b/config.json" plainConfig
       = Return (c', None).
Proof.
  split; [reflexivity|]. split; [reflexivity|].
  apply (LoadFromFile_succeeds sampleSys "/a/b/config.json" plainConfig
           (configWithSecret "" payloadX1) tt eq_refl eq_refl).
  - right. exists "/a/b/data". reflexivity.
  - intros name p. unfold repoNamed, configWithSecret. simpl.
    intros Hp.
    destruct (decide (name = "a")) as [->|Ha].
    + rewrite lookup_insert_eq in Hp. injection Hp as <-. by eexists.
    + rewrite lookup_insert_ne in Hp by done.
      apply lookup_singleton_Some in Hp as [_ <-]. by eexists.
Defined.
